(** * Election research agent: a shallow embedding of the analysis pipeline

    The Python sources embedded here are

    - [src/analysis/news_analyzer.py]         ([Module NewsAnalyzer])
    - [src/analysis/social_media_analyzer.py] ([Module SocialMediaAnalyzer])
    - [src/data/data_collector.py]            ([Module DataCollector])
    - [src/main.py]                           ([Module ElectionResearchSystem])

    Python dictionaries are finite maps from strings to dynamically typed
    values, exceptions are an explicit error result, and every external
    collaborator (the chat model, the article library, the HTTP client, the
    Twitter cursor, the clock, the local model handler) is an oracle acting
    on an abstract world.  Logging and the requests that leave the process
    are recorded in the state, so that what the code sends and what it logs
    can be stated. *)

From stdpp Require Import gmap strings list fin_maps pretty.
From Stdlib Require Import ZArith QArith Lia.

#[local] Set Warnings "-register-all".
#[local] Open Scope string_scope.
#[local] Open Scope Z_scope.

(** ** Python values *)

(** A [datetime] is its number of seconds since the epoch; a [float] is the
    rational it denotes. *)
Inductive pyval : Type :=
| PyNone
| PyBool (b : bool)
| PyInt (z : Z)
| PyFloat (q : Q)
| PyStr (s : string)
| PyDate (t : Z)
| PyList (l : list pyval)
| PyDict (d : gmap string pyval).

Abbreviation pydict := (gmap string pyval).

(** ** Exceptions *)

(** Every class below derives from Python's [Exception]; [External] stands
    for the exception classes of the third-party clients (HTTP errors,
    Twitter errors, model-service errors).  [KeyboardInterrupt] and
    [SystemExit], which do not derive from [Exception], are outside the
    model. *)
Inductive exc_class : Type :=
| KeyError
| TypeError
| ValueError
| AttributeError
| ArticleException
| External (name : string).

Record exc : Type := Exc { exc_cls : exc_class; exc_arg : string }.

(** [str(e)]: a [KeyError] prints the [repr] of the missing key (the keys of
    this program are literal identifiers), any other exception prints its
    message. *)
Definition str_exc (e : exc) : string :=
  match exc_cls e with
  | KeyError => "'" ++ exc_arg e ++ "'"
  | _ => exc_arg e
  end.

Definition is_article_exception (e : exc) : bool :=
  match exc_cls e with
  | ArticleException => true
  | _ => false
  end.

(** The result of an expression that may raise. *)
Inductive res (A : Type) : Type :=
| Ok (a : A)
| Err (e : exc).
Arguments Ok {A} a.
Arguments Err {A} e.

Definition is_Err {A} (r : res A) : bool :=
  match r with
  | Ok _ => false
  | Err _ => true
  end.

Definition is_Ok {A} (r : res A) : bool := negb (is_Err r).

(** The value of a result, or [dflt] when it is an exception. *)
Definition value_or {A} (dflt : A) (r : res A) : A :=
  match r with
  | Ok a => a
  | Err _ => dflt
  end.

Definition res_bind {A B} (r : res A) (k : A -> res B) : res B :=
  match r with
  | Ok a => k a
  | Err e => Err e
  end.

(** Evaluate [f] on the elements from left to right, stopping at the first
    exception (a comprehension or generator whose element expression may
    raise). *)
Fixpoint res_map {A B} (f : A -> res B) (l : list A) : res (list B) :=
  match l with
  | [] => Ok []
  | x :: l' => res_bind (f x) (fun y => res_bind (res_map f l') (fun ys => Ok (y :: ys)))
  end.

(** ** Built-in operations *)

Definition nl : string := String (Ascii.ascii_of_nat 10) "".

Definition type_name (v : pyval) : string :=
  match v with
  | PyNone => "NoneType"
  | PyBool _ => "bool"
  | PyInt _ => "int"
  | PyFloat _ => "float"
  | PyStr _ => "str"
  | PyDate _ => "datetime.datetime"
  | PyList _ => "list"
  | PyDict _ => "dict"
  end.

(** Truth value of an object in a condition. *)
Definition py_truthy (v : pyval) : bool :=
  match v with
  | PyNone => false
  | PyBool b => b
  | PyInt z => negb (z =? 0)
  | PyFloat q => negb (Qeq_bool q 0)
  | PyStr s => negb (String.eqb s "")
  | PyDate _ => true
  | PyList l => negb (Nat.eqb (length l) 0)
  | PyDict d => negb (Nat.eqb (size d) 0)
  end.

(** [d[k]] on a dictionary. *)
Definition dict_getitem (d : pydict) (k : string) : res pyval :=
  match d !! k with
  | Some v => Ok v
  | None => Err (Exc KeyError k)
  end.

(** [d.get(k, default)] on a dictionary. *)
Definition dict_get (d : pydict) (k : string) (dflt : pyval) : pyval :=
  default dflt (d !! k).

(** [d.get(k)]: the default is [None]. *)
Definition dict_get_none (d : pydict) (k : string) : pyval := dict_get d k PyNone.

(** [v[k]] for a string key [k] on an arbitrary object (messages of
    CPython 3.11). *)
Definition py_getitem (v : pyval) (k : string) : res pyval :=
  match v with
  | PyDict d => dict_getitem d k
  | PyStr _ => Err (Exc TypeError "string indices must be integers, not 'str'")
  | PyList _ => Err (Exc TypeError "list indices must be integers or slices, not str")
  | _ => Err (Exc TypeError ("'" ++ type_name v ++ "' object is not subscriptable"))
  end.

(** [v.get(k, default)] on an arbitrary object. *)
Definition py_get (v : pyval) (k : string) (dflt : pyval) : res pyval :=
  match v with
  | PyDict d => Ok (dict_get d k dflt)
  | _ => Err (Exc AttributeError ("'" ++ type_name v ++ "' object has no attribute 'get'"))
  end.

(** [sep.join(items)]: every item has to be a [str]; the first one that is
    not raises [TypeError]. *)
Fixpoint join_items (i : nat) (items : list pyval) : res (list string) :=
  match items with
  | [] => Ok []
  | PyStr s :: rest => res_bind (join_items (S i) rest) (fun ss => Ok (s :: ss))
  | v :: _ =>
      Err (Exc TypeError ("sequence item " ++ pretty i ++ ": expected str instance, "
                            ++ type_name v ++ " found"))
  end.

Definition py_join (sep : string) (items : list pyval) : res string :=
  res_bind (join_items 0 items) (fun ss => Ok (String.concat sep ss)).

(** The characters of a string, as iteration over a [str] yields them. *)
Fixpoint str_chars (s : string) : list pyval :=
  match s with
  | EmptyString => []
  | String c s' => PyStr (String c "") :: str_chars s'
  end.

(** ** External collaborators *)

Inductive level : Type := INFO | WARNING | ERROR.

(** A chat message handed to the model. *)
Inductive message : Type :=
| SystemMessage (content : string)
| HumanMessage (content : string).

(** What the article library exposes after [download()], [parse()] and,
    where the code calls it, [nlp()]. *)
Record parsed_article : Type := ParsedArticle {
  art_title : string;
  art_text : string;
  art_summary : string;
  art_keywords : list string;
  art_publish_date : option Z
}.

(** A status object of the Twitter client. *)
Record status : Type := Status {
  st_id : Z;
  st_full_text : string;
  st_created_at : Z;
  st_screen_name : string;
  st_retweet_count : Z;
  st_favorite_count : Z
}.

(** The requests that leave the process. *)
Inductive call : Type :=
| LlmInvoke (messages : list message)
| ArticleFetch (url : pyval) (nlp : bool)
| HttpGet (url : string) (params : pydict)
| TwitterSearch (q tweet_mode lang : string) (limit : nat)
| HandlerParse (query : string)
| HandlerAnalyze (content kind : string)
| HandlerPredict (analyses : list pyval).

(** The environment of a run: the external services as oracles on a world
    [W] they may read and change, the library functions the code calls, and
    the corners of the interpreter that the embedding leaves open. *)
Record env (W : Type) : Type := Env {
  (** [ChatOpenAI.invoke(messages).content] *)
  llm : list message -> W -> res string * W;
  (** [Article(url)], [download()], [parse()] and optionally [nlp()] *)
  newspaper : pyval -> bool -> W -> res parsed_article * W;
  (** [requests.get(url, params=...)], [raise_for_status()] and [json()] *)
  requests_get : string -> pydict -> W -> res pyval * W;
  (** the stream of statuses behind [tweepy.Cursor(search_tweets, ...)] *)
  search_tweets : string -> string -> string -> W -> res (list status) * W;
  (** [datetime.now()] *)
  clock : W -> Z * W;
  (** [LocalLLMHandler.parse_election_query] *)
  handler_parse : string -> W -> res pydict * W;
  (** [LocalLLMHandler.analyze_content] *)
  handler_analyze : string -> string -> W -> res pyval * W;
  (** [LocalLLMHandler.generate_prediction] *)
  handler_predict : list pyval -> W -> res pyval * W;
  (** [os.getenv('NEWS_API_KEY')] *)
  news_api_key : pyval;
  (** [strftime('%Y-%m-%d')] and [isoformat()] of a datetime *)
  strftime_ymd : Z -> string;
  isoformat : Z -> string;
  (** [str(v)] of a value that is not a string *)
  str_other : pyval -> string;
  (** the insertion order of a dictionary's keys, which the map forgets *)
  dict_keys : pydict -> list string;
  (** [a < b] outside integers, strings and datetimes *)
  lt_other : pyval -> pyval -> res bool
}.
Arguments llm {W} _ _ _.
Arguments newspaper {W} _ _ _ _.
Arguments requests_get {W} _ _ _ _.
Arguments search_tweets {W} _ _ _ _ _.
Arguments clock {W} _ _.
Arguments handler_parse {W} _ _ _.
Arguments handler_analyze {W} _ _ _ _.
Arguments handler_predict {W} _ _ _.
Arguments news_api_key {W} _.
Arguments strftime_ymd {W} _ _.
Arguments isoformat {W} _ _.
Arguments str_other {W} _ _.
Arguments dict_keys {W} _ _.
Arguments lt_other {W} _ _ _.

(** ** The state of a run and its monad *)

Record state (W : Type) : Type := State {
  world : W;
  logs : list (level * string);
  sent : list call
}.
Arguments State {W} _ _ _.
Arguments world {W} _.
Arguments logs {W} _.
Arguments sent {W} _.

(** A statement or expression of the program: it runs from a state, returns
    a value or raises, and leaves a state. *)
Definition M (W A : Type) : Type := state W -> res A * state W.

Section Monad.
Context {W : Type}.

Definition ret {A} (a : A) : M W A := fun s => (Ok a, s).

Definition raise {A} (e : exc) : M W A := fun s => (Err e, s).

Definition bind {A B} (m : M W A) (k : A -> M W B) : M W B :=
  fun s =>
    match m s with
    | (Ok a, s') => k a s'
    | (Err e, s') => (Err e, s')
    end.

(** An expression of the built-in layer, which touches no state. *)
Definition lift {A} (r : res A) : M W A := fun s => (r, s).

(** [try: m  except Exception as e: h e].  What [m] did to the state
    before raising stays done. *)
Definition try_except {A} (m : M W A) (h : exc -> M W A) : M W A :=
  fun s =>
    match m s with
    | (Ok a, s') => (Ok a, s')
    | (Err e, s') => h e s'
    end.

(** [try: m  except C as e: h e] for one exception class, selected by
    [catches]; any other exception propagates. *)
Definition try_except_only {A} (catches : exc -> bool) (m : M W A) (h : exc -> M W A)
  : M W A :=
  try_except m (fun e => if catches e then h e else raise e).

(** [self.logger.<level>(msg)] *)
Definition log (lv : level) (msg : string) : M W unit :=
  fun s => (Ok tt, State (world s) (logs s ++ [(lv, msg)]) (sent s)).

(** The request [c] leaves the process and the oracle [o] answers it. *)
Definition request {A} (c : call) (o : W -> res A * W) : M W A :=
  fun s =>
    let (r, w) := o (world s) in
    (r, State w (logs s) (sent s ++ [c])).

(** [for x in l: acc = body x acc] *)
Fixpoint for_in {A B} (l : list A) (body : A -> B -> M W B) (acc : B) : M W B :=
  match l with
  | [] => ret acc
  | x :: l' => bind (body x acc) (for_in l' body)
  end.
End Monad.

Notation "x <- m ;; k" := (bind m (fun x => k))
  (at level 100, m at next level, right associativity).
Notation "m ;;; k" := (bind m (fun _ => k))
  (at level 100, right associativity).

(** ** Properties of programs *)

Section Programs.
Context {W : Type}.

(** Programs that log nothing. *)
Definition keeps_logs {A} (m : M W A) : Prop :=
  forall s, logs (snd (m s)) = logs s.

(** Programs all of whose requests satisfy [P]. *)
Definition sends (P : call -> Prop) {A} (m : M W A) : Prop :=
  forall s, exists later, sent (snd (m s)) = (sent s ++ later)%list /\ Forall P later.

(** Two results agree up to [R] when both are the same exception or both
    are values related by [R]. *)
Definition res_rel {A} (R : A -> A -> Prop) (r1 r2 : res A) : Prop :=
  match r1, r2 with
  | Ok a, Ok b => R a b
  | Err e1, Err e2 => e1 = e2
  | _, _ => False
  end.

(** Two programs agree up to [R] when their results do, from any two
    states. *)
Definition agree {A} (R : A -> A -> Prop) (m1 m2 : M W A) : Prop :=
  forall s1 s2, res_rel R (fst (m1 s1)) (fst (m2 s2)).

(** The state after [self.logger.info("Starting data collection...")]. *)
Definition collecting (s : state W) : state W :=
  State (world s) (logs s ++ [(INFO, "Starting data collection...")]) (sent s).
End Programs.

(** ** Built-ins that depend on the interpreter *)

Section Builtins.
Context {W : Type} (E : env W).

(** [str(v)], also what an f-string inserts for [{v}]. *)
Definition py_str (v : pyval) : string :=
  match v with
  | PyStr s => s
  | _ => str_other E v
  end.

(** The elements that [for x in v] visits. *)
Definition py_iter (v : pyval) : res (list pyval) :=
  match v with
  | PyList l => Ok l
  | PyStr s => Ok (str_chars s)
  | PyDict d => Ok (PyStr <$> dict_keys E d)
  | _ => Err (Exc TypeError ("'" ++ type_name v ++ "' object is not iterable"))
  end.

(** [len(v)] *)
Definition py_len (v : pyval) : res Z :=
  match v with
  | PyList l => Ok (Z.of_nat (length l))
  | PyStr s => Ok (Z.of_nat (String.length s))
  | PyDict d => Ok (Z.of_nat (size d))
  | _ => Err (Exc TypeError ("object of type '" ++ type_name v ++ "' has no len()"))
  end.

(** [a < b] *)
Definition py_lt (a b : pyval) : res bool :=
  match a, b with
  | PyInt x, PyInt y => Ok (x <? y)
  | PyDate x, PyDate y => Ok (x <? y)
  | PyStr x, PyStr y => Ok (String.ltb x y)
  | _, _ => lt_other E a b
  end.

(** [a > b] *)
Definition py_gt (a b : pyval) : res bool := py_lt b a.

(** The scan of [min(key(x) for x in l)] and [max(...)] after the first
    element: the next element is produced, compared with the best so far,
    and kept when [better] holds. *)
Fixpoint best_loop {A} (better : pyval -> pyval -> res bool) (key : A -> res pyval)
  (best : pyval) (l : list A) : res pyval :=
  match l with
  | [] => Ok best
  | x :: l' =>
      res_bind (key x) (fun v =>
      res_bind (better v best) (fun b =>
      best_loop better key (if b then v else best) l'))
  end.

Definition best_of {A} (name : string) (better : pyval -> pyval -> res bool)
  (key : A -> res pyval) (l : list A) : res pyval :=
  match l with
  | [] => Err (Exc ValueError (name ++ "() arg is an empty sequence"))
  | x :: l' => res_bind (key x) (fun v => best_loop better key v l')
  end.

Definition py_min {A} (key : A -> res pyval) (l : list A) : res pyval :=
  best_of "min" py_lt key l.

Definition py_max {A} (key : A -> res pyval) (l : list A) : res pyval :=
  best_of "max" py_gt key l.

(** [datetime.now()] *)
Definition now : M W Z :=
  fun s =>
    let (t, w) := clock E (world s) in
    (Ok t, State w (logs s) (sent s)).
End Builtins.

Definition has_key (d : pydict) (k : string) : bool :=
  match d !! k with
  | Some _ => true
  | None => false
  end.

(** ** [news_analyzer.py] *)

Module NewsAnalyzer.
Section WithEnv.
Context {W : Type} (E : env W).

Definition article_messages (parsed_article : parsed_article) : list message :=
  [ SystemMessage "You are an expert political analyst. Analyze this news article for election-related information.";
    HumanMessage ("Title: " ++ art_title parsed_article ++ nl ++ nl
                    ++ "Content: " ++ art_text parsed_article) ].

(** The [try] block of [_analyze_single_article]. *)
Definition analyze_article_body (article : pydict) : M W pydict :=
  url <- lift (dict_getitem article "url") ;;
  parsed_article <- request (ArticleFetch url true) (newspaper E url true) ;;
  response <- request (LlmInvoke (article_messages parsed_article))
                      (llm E (article_messages parsed_article)) ;;
  url' <- lift (dict_getitem article "url") ;;
  ret (<["url" := url']>
      (<["title" := PyStr (art_title parsed_article)]>
      (<["summary" := PyStr (art_summary parsed_article)]>
      (<["keywords" := PyList (PyStr <$> art_keywords parsed_article)]>
      (<["llm_analysis" := PyStr response]>
      (<["publication_date" := from_option PyDate PyNone (art_publish_date parsed_article)]>
       ∅)))))).

(** The record returned by the [except] block. *)
Definition error_analysis (article : pydict) (e : exc) : pydict :=
  <["error" := PyStr (str_exc e)]>
  (<["url" := dict_get article "url" (PyStr "unknown")]> ∅).

Definition _analyze_single_article (article : pydict) : M W pydict :=
  try_except (analyze_article_body article)
    (fun e =>
       log ERROR ("Error analyzing article "
                    ++ py_str E (dict_get article "url" (PyStr "unknown"))
                    ++ ": " ++ str_exc e) ;;;
       ret (error_analysis article e)).

(** [[a['llm_analysis'] for a in analyzed_articles if 'llm_analysis' in a]] *)
Definition llm_analyses (analyzed_articles : list pydict) : res (list pyval) :=
  res_map (fun a => dict_getitem a "llm_analysis")
          (List.filter (fun a => has_key a "llm_analysis") analyzed_articles).

Definition meta_messages (combined_analysis : string) : list message :=
  [ SystemMessage "You are an expert political analyst. Provide a meta-analysis of these news analyses.";
    HumanMessage combined_analysis ].

Definition aggregate (meta_analysis : string) (analyzed_articles : list pydict) : pydict :=
  <["meta_analysis" := PyStr meta_analysis]>
  (<["article_count" := PyInt (Z.of_nat (length analyzed_articles))]>
  (<["individual_analyses" := PyList (PyDict <$> analyzed_articles)]> ∅)).

Definition _aggregate_analysis (analyzed_articles : list pydict) : M W pydict :=
  try_except
    (texts <- lift (llm_analyses analyzed_articles) ;;
     combined_analysis <- lift (py_join (nl ++ nl) texts) ;;
     meta_analysis <- request (LlmInvoke (meta_messages combined_analysis))
                              (llm E (meta_messages combined_analysis)) ;;
     ret (aggregate meta_analysis analyzed_articles))
    (fun e =>
       log ERROR ("Error in aggregating analysis: " ++ str_exc e) ;;;
       raise e).

(** The loop of [analyze]: one analysis is appended per article. *)
Definition analyze_articles (news_data : list pydict) : M W (list pydict) :=
  for_in news_data
    (fun article analyzed_articles =>
       analysis <- _analyze_single_article article ;;
       ret (analyzed_articles ++ [analysis])%list)
    [].

Definition analyze (news_data : list pydict) : M W pydict :=
  try_except
    (analyzed_articles <- analyze_articles news_data ;;
     _aggregate_analysis analyzed_articles)
    (fun e =>
       log ERROR ("Error analyzing news data: " ++ str_exc e) ;;;
       raise e).
End WithEnv.
End NewsAnalyzer.

(** ** [social_media_analyzer.py] *)

Module SocialMediaAnalyzer.
Section WithEnv.
Context {W : Type} (E : env W).

Definition twitter_messages (tweet_texts : string) : list message :=
  [ SystemMessage "You are an expert in social media analysis and political sentiment. Analyze these tweets for election-related patterns and sentiment.";
    HumanMessage ("Tweets:" ++ nl ++ tweet_texts) ].

Definition created_at (tweet : pyval) : res pyval := py_getitem tweet "created_at".

Definition _analyze_twitter (tweets : pyval) : M W pydict :=
  try_except
    (items <- lift (py_iter E tweets) ;;
     texts <- lift (res_map (fun tweet => py_getitem tweet "text") items) ;;
     tweet_texts <- lift (py_join (nl ++ nl) texts) ;;
     analysis <- request (LlmInvoke (twitter_messages tweet_texts))
                         (llm E (twitter_messages tweet_texts)) ;;
     tweet_count <- lift (py_len tweets) ;;
     items_min <- lift (py_iter E tweets) ;;
     start <- lift (py_min E created_at items_min) ;;
     items_max <- lift (py_iter E tweets) ;;
     end_ <- lift (py_max E created_at items_max) ;;
     ret (<["sentiment_analysis" := PyStr analysis]>
         (<["tweet_count" := PyInt tweet_count]>
         (<["time_period" := PyDict (<["start" := start]> (<["end" := end_]> ∅))]> ∅))))
    (fun e =>
       log ERROR ("Error analyzing Twitter data: " ++ str_exc e) ;;;
       raise e).

Definition _calculate_overall_sentiment (twitter_analysis : pydict) : M W pyval :=
  try_except
    (ret (PyFloat 0))
    (fun e =>
       log ERROR ("Error calculating overall sentiment: " ++ str_exc e) ;;;
       raise e).

Definition analyze (social_data : pydict) : M W pydict :=
  try_except
    (twitter_analysis <- _analyze_twitter (dict_get social_data "twitter" (PyList [])) ;;
     timestamp <- now E ;;
     overall_sentiment <- _calculate_overall_sentiment twitter_analysis ;;
     ret (<["timestamp" := PyStr (isoformat E timestamp)]>
         (<["twitter_analysis" := PyDict twitter_analysis]>
         (<["overall_sentiment" := overall_sentiment]> ∅))))
    (fun e =>
       log ERROR ("Error in social media analysis: " ++ str_exc e) ;;;
       raise e).
End WithEnv.
End SocialMediaAnalyzer.

(** ** [data_collector.py] *)

Module DataCollector.
Section WithEnv.
Context {W : Type} (E : env W).

Definition dquote : string := String (Ascii.ascii_of_nat 34) "".

(** [if params.get(key): search_terms.append(params[key])] *)
Definition append_if_set (params : pydict) (key : string) (search_terms : list pyval)
  : res (list pyval) :=
  if py_truthy (dict_get_none params key)
  then res_bind (dict_getitem params key) (fun v => Ok (search_terms ++ [v])%list)
  else Ok search_terms.

(** [candidates = params.get('candidates', [])] and, when it is not empty,
    [search_terms.extend([f'"{c}"' for c in candidates])]. *)
Definition extend_with_candidates (params : pydict) (search_terms : list pyval)
  : res (list pyval) :=
  let candidates := dict_get params "candidates" (PyList []) in
  if py_truthy candidates
  then res_bind (py_iter E candidates) (fun cs =>
         Ok (search_terms ++ ((fun c => PyStr (dquote ++ py_str E c ++ dquote)) <$> cs))%list)
  else Ok search_terms.

(** The terms both collectors start from: election type, country, region
    and the quoted candidate names. *)
Definition location_and_candidates (params : pydict) : res (list pyval) :=
  res_bind (append_if_set params "election_type" []) (fun t1 =>
  res_bind (append_if_set params "country" t1) (fun t2 =>
  res_bind (append_if_set params "region" t2) (fun t3 =>
  extend_with_candidates params t3))).

(** [search_terms.extend(params.get('keywords', []))] *)
Definition news_search_terms (params : pydict) : res (list pyval) :=
  res_bind (location_and_candidates params) (fun terms =>
  res_bind (py_iter E (dict_get params "keywords" (PyList []))) (fun kws =>
  Ok (terms ++ kws)%list)).

Definition base_url : string := "https://newsapi.org/v2/everything".

Definition seconds_per_day : Z := 86400.

(** The dictionary [api_params]; [t] is [datetime.now()]. *)
Definition news_api_params (query : string) (t : Z) : pydict :=
  <["q" := PyStr query]>
  (<["from" := PyStr (strftime_ymd E (t - 7 * seconds_per_day))]>
  (<["sortBy" := PyStr "relevancy"]>
  (<["language" := PyStr "en"]>
  (<["apiKey" := news_api_key E]> ∅)))).

(** The dictionary appended for one article: the article is downloaded and
    parsed, then the fields are read. *)
Definition process_article (article : pyval) : M W pydict :=
  url <- lift (py_getitem article "url") ;;
  article_obj <- request (ArticleFetch url false) (newspaper E url false) ;;
  url' <- lift (py_getitem article "url") ;;
  title <- lift (py_getitem article "title") ;;
  published_at <- lift (py_getitem article "publishedAt") ;;
  source <- lift (py_getitem article "source") ;;
  name <- lift (py_getitem source "name") ;;
  ret (<["url" := url']>
      (<["title" := title]>
      (<["text" := PyStr (art_text article_obj)]>
      (<["published_at" := published_at]>
      (<["source" := name]> ∅))))).

(** One iteration of the loop over the articles.  The [try] block appends
    the processed article; an [ArticleException] is logged as a warning
    and the loop continues with the list unchanged; an exception of any
    other class leaves the loop. *)
Definition collect_article (article : pyval) (processed_articles : list pydict)
  : M W (list pydict) :=
  try_except_only is_article_exception
    (processed <- process_article article ;;
     ret (processed_articles ++ [processed])%list)
    (fun ae =>
       url <- lift (py_getitem article "url") ;;
       log WARNING ("Error processing article " ++ py_str E url ++ ": " ++ str_exc ae) ;;;
       ret processed_articles).

(** The statements of [_collect_news] before its loop: the query and
    [api_params] are built, the request is sent and the articles of the
    answer are read.  The request is sent with [params], the election
    parameters; the dictionary [api_params] is not used. *)
Definition fetch_articles (params : pydict) : M W (list pyval) :=
  search_terms <- lift (news_search_terms params) ;;
  query <- lift (py_join " AND " search_terms) ;;
  t <- now E ;;
  let api_params := news_api_params query t in
  response <- request (HttpGet base_url params) (requests_get E base_url params) ;;
  articles <- lift (py_get response "articles" (PyList [])) ;;
  lift (py_iter E articles).

Definition _collect_news (params : pydict) : M W (list pydict) :=
  try_except
    (articles <- fetch_articles params ;;
     for_in articles collect_article [])
    (fun e =>
       log ERROR ("Error collecting news data: " ++ str_exc e) ;;;
       raise e).

(** [hashtags = params.get('hashtags', [])] and, when it is not empty,
    [search_terms.extend(hashtags)]. *)
Definition twitter_search_terms (params : pydict) : res (list pyval) :=
  res_bind (location_and_candidates params) (fun terms =>
  let hashtags := dict_get params "hashtags" (PyList []) in
  if py_truthy hashtags
  then res_bind (py_iter E hashtags) (fun hs => Ok (terms ++ hs)%list)
  else Ok terms).

Definition tweet_limit : nat := 1000.

Definition tweet_dict (tweet : status) : pydict :=
  <["id" := PyInt (st_id tweet)]>
  (<["text" := PyStr (st_full_text tweet)]>
  (<["created_at" := PyDate (st_created_at tweet)]>
  (<["user" := PyStr (st_screen_name tweet)]>
  (<["retweet_count" := PyInt (st_retweet_count tweet)]>
  (<["favorite_count" := PyInt (st_favorite_count tweet)]> ∅))))).

(** [Cursor(...).items(1000)] stops after 1000 statuses.  The second loop
    of the source follows a [return] and is never reached. *)
Definition _collect_twitter (params : pydict) : M W (list pydict) :=
  try_except
    (search_terms <- lift (twitter_search_terms params) ;;
     joined <- lift (py_join " " search_terms) ;;
     let query := joined ++ " -filter:retweets" in
     statuses <- request (TwitterSearch query "extended" "en" tweet_limit)
                         (search_tweets E query "extended" "en") ;;
     ret (tweet_dict <$> take tweet_limit statuses))
    (fun e =>
       log ERROR ("Error collecting Twitter data: " ++ str_exc e) ;;;
       raise e).

Definition _collect_social_media (params : pydict) : M W pydict :=
  try_except
    (twitter_data <- _collect_twitter params ;;
     ret (<["twitter" := PyList (PyDict <$> twitter_data)]>
         (<["parameters" := PyDict params]> ∅)))
    (fun e =>
       log ERROR ("Error collecting social media data: " ++ str_exc e) ;;;
       raise e).

Definition collect (params : pydict) : M W pydict :=
  try_except
    (news_data <- _collect_news params ;;
     social_data <- _collect_social_media params ;;
     timestamp <- now E ;;
     ret (<["timestamp" := PyStr (isoformat E timestamp)]>
         (<["parameters" := PyDict params]>
         (<["news" := PyList (PyDict <$> news_data)]>
         (<["social" := PyDict social_data]> ∅)))))
    (fun e =>
       log ERROR ("Error collecting data: " ++ str_exc e) ;;;
       raise e).
End WithEnv.
End DataCollector.

(** ** [report_generator.py] *)

(** [json.dumps] accepts every value of the embedding except a [datetime],
    wherever it sits. *)
Fixpoint holds_datetime (v : pyval) : bool :=
  match v with
  | PyDate _ => true
  | PyList l => existsb holds_datetime l
  | PyDict d => map_fold (fun _ v' found => holds_datetime v' || found) false d
  | _ => false
  end.

(** What the report generator needs beyond the environment of the
    pipeline: number formatting, the JSON text, two date formats and the
    file system. *)
Record report_env (W : Type) : Type := ReportEnv {
  (** [format(value, spec)], as an f-string does for [{value:spec}] *)
  format_spec : pyval -> string -> res string;
  (** [json.dumps(v, indent=2)] of a value [json.dumps] accepts *)
  json_text : pyval -> string;
  (** [strftime("%Y%m%d_%H%M%S")] and [strftime('%Y-%m-%d %H:%M:%S')] *)
  strftime_compact : Z -> string;
  strftime_seconds : Z -> string;
  (** [Path.write_text] *)
  write_text : string -> string -> W -> res unit * W
}.
Arguments format_spec {W} _ _ _.
Arguments json_text {W} _ _.
Arguments strftime_compact {W} _ _.
Arguments strftime_seconds {W} _ _.
Arguments write_text {W} _ _ _ _.

Module ReportGenerator.
Section WithEnv.
Context {W : Type} (E : env W) (R : report_env W).

(** [json.dumps(v, indent=2)] *)
Definition json_dumps (v : pyval) : res string :=
  if holds_datetime v
  then Err (Exc TypeError "Object of type datetime is not JSON serializable")
  else Ok (json_text R v).

(** [v.items()] *)
Definition py_items (v : pyval) : res (list (string * pyval)) :=
  match v with
  | PyDict d => Ok (omap (fun k => pair k <$> d !! k) (dict_keys E d))
  | _ => Err (Exc AttributeError ("'" ++ type_name v ++ "' object has no attribute 'items'"))
  end.

(** [path.write_text(content)] *)
Definition write (path content : string) : M W unit :=
  fun s =>
    let (r, w) := write_text R path content (world s) in
    (r, State w (logs s) (sent s)).

(** [str(self.report_dir / name)], with the separator of a POSIX path. *)
Definition in_report_dir (name : string) : string := "reports/" ++ name.

(** [f"- {candidate}: {probability:.1%}"] *)
Definition outcome_line (item : string * pyval) : res string :=
  res_bind (format_spec R (snd item) ".1%") (fun probability =>
  Ok ("- " ++ fst item ++ ": " ++ probability)).

Definition _generate_executive_summary (predictions : pyval) : M W string :=
  try_except
    (confidence <- lift (py_get predictions "confidence" (PyInt 0)) ;;
     prediction_results <- lift (py_get predictions "predictions" (PyDict ∅)) ;;
     confidence_text <- lift (format_spec R confidence ".1%") ;;
     items <- lift (py_items prediction_results) ;;
     outcomes <- lift (res_map outcome_line items) ;;
     let summary :=
       [ "Based on our comprehensive analysis of news and social media data,";
         "we predict the following election outcomes with " ++ confidence_text
           ++ " confidence:" ] in
     ret (String.concat nl (summary ++ outcomes)%list))
    (fun e =>
       log ERROR ("Error generating executive summary: " ++ str_exc e) ;;;
       ret "Error generating executive summary").

Definition _format_news_analysis (news_analysis : pyval) : M W string :=
  try_except
    (article_count <- lift (py_get news_analysis "article_count" (PyInt 0)) ;;
     meta_analysis <- lift (py_get news_analysis "meta_analysis"
                                   (PyStr "No analysis available")) ;;
     ret ("### Overview" ++ nl
            ++ "- Number of articles analyzed: " ++ py_str E article_count ++ nl
            ++ nl
            ++ "### Key Findings" ++ nl
            ++ py_str E meta_analysis))
    (fun e =>
       log ERROR ("Error formatting news analysis: " ++ str_exc e) ;;;
       ret "Error formatting news analysis").

Definition _format_social_analysis (social_analysis : pyval) : M W string :=
  try_except
    (twitter <- lift (py_get social_analysis "twitter_analysis" (PyDict ∅)) ;;
     tweet_count <- lift (py_get twitter "tweet_count" (PyInt 0)) ;;
     overall_sentiment <- lift (py_get social_analysis "overall_sentiment" (PyInt 0)) ;;
     sentiment_text <- lift (format_spec R overall_sentiment ".2f") ;;
     sentiment_analysis <- lift (py_get twitter "sentiment_analysis"
                                        (PyStr "No analysis available")) ;;
     ret ("### Twitter Analysis" ++ nl
            ++ "- Number of tweets analyzed: " ++ py_str E tweet_count ++ nl
            ++ "- Overall sentiment: " ++ sentiment_text ++ nl
            ++ nl
            ++ "### Key Findings" ++ nl
            ++ py_str E sentiment_analysis))
    (fun e =>
       log ERROR ("Error formatting social analysis: " ++ str_exc e) ;;;
       ret "Error formatting social analysis").

Definition _format_predictions (predictions : pyval) : M W string :=
  try_except
    (results <- lift (py_get predictions "predictions" (PyDict ∅)) ;;
     confidence <- lift (py_get predictions "confidence" (PyInt 0)) ;;
     confidence_text <- lift (format_spec R confidence ".1%") ;;
     items <- lift (py_items results) ;;
     outcomes <- lift (res_map outcome_line items) ;;
     let prediction_lines :=
       [ "### Prediction Confidence: " ++ confidence_text;
         "";
         "### Predicted Outcomes" ] in
     ret (String.concat nl (prediction_lines ++ outcomes)%list))
    (fun e =>
       log ERROR ("Error formatting predictions: " ++ str_exc e) ;;;
       ret "Error formatting predictions").

Definition _generate_methodology_section : string :=
  String.concat nl
    [ "Our analysis combines multiple data sources and advanced AI techniques:";
      "";
      "1. **Data Collection**";
      "   - News articles from major publications";
      "   - Social media posts and engagement metrics";
      "   ";
      "2. **Analysis Techniques**";
      "   - Natural Language Processing for content analysis";
      "   - Sentiment Analysis";
      "   - Topic Modeling";
      "   ";
      "3. **Prediction Model**";
      "   - Machine Learning-based prediction";
      "   - Confidence scoring based on data quality and coverage" ].

Definition _create_report_content (analysis_results : pydict) : M W string :=
  try_except
    (let predictions := dict_get analysis_results "predictions" (PyDict ∅) in
     let news_analysis := dict_get analysis_results "news_analysis" (PyDict ∅) in
     let social_analysis := dict_get analysis_results "social_analysis" (PyDict ∅) in
     generated <- now E ;;
     summary <- _generate_executive_summary predictions ;;
     news <- _format_news_analysis news_analysis ;;
     social <- _format_social_analysis social_analysis ;;
     outcomes <- _format_predictions predictions ;;
     ret (String.concat (nl ++ nl)
            [ "# Election Analysis Report";
              "Generated on: " ++ strftime_seconds R generated;
              "## Executive Summary";
              summary;
              "## News Analysis";
              news;
              "## Social Media Analysis";
              social;
              "## Predictions";
              outcomes;
              "## Methodology";
              _generate_methodology_section ]))
    (fun e =>
       log ERROR ("Error creating report content: " ++ str_exc e) ;;;
       raise e).

Definition report_path (timestamp : string) : string :=
  in_report_dir ("election_analysis_" ++ timestamp ++ ".md").

Definition raw_data_path (timestamp : string) : string :=
  in_report_dir ("raw_data_" ++ timestamp ++ ".json").

Definition generate (analysis_results : pydict) : M W string :=
  try_except
    (t <- now E ;;
     let timestamp := strftime_compact R t in
     report_content <- _create_report_content analysis_results ;;
     write (report_path timestamp) report_content ;;;
     raw_data <- lift (json_dumps (PyDict analysis_results)) ;;
     write (raw_data_path timestamp) raw_data ;;;
     ret (report_path timestamp))
    (fun e =>
       log ERROR ("Error generating report: " ++ str_exc e) ;;;
       raise e).
End WithEnv.
End ReportGenerator.

(** ** [main.py] *)

Module ElectionResearchSystem.
Section WithEnv.
Context {W : Type} (E : env W).

Definition parse_election_query (query : string) : M W pydict :=
  try_except
    (log INFO ("Parsing query: " ++ query) ;;;
     parameters <- request (HandlerParse query) (handler_parse E query) ;;
     log INFO ("Extracted parameters: " ++ py_str E (PyDict parameters)) ;;;
     ret parameters)
    (fun e =>
       log ERROR ("Error parsing query: " ++ str_exc e) ;;;
       raise e).

(** ['\n'.join(item['text'] for item in items)] *)
Definition joined_texts (items : pyval) : res string :=
  res_bind (py_iter E items) (fun l =>
  res_bind (res_map (fun item => py_getitem item "text") l) (fun texts =>
  py_join nl texts)).

(** [{<items_key>: items, 'analysis': llm_handler.analyze_content(text, kind)}] *)
Definition analyze_source (items_key : string) (items : pyval) (kind : string)
  : M W pydict :=
  content <- lift (joined_texts items) ;;
  analysis <- request (HandlerAnalyze content kind) (handler_analyze E content kind) ;;
  ret (<[items_key := items]> (<["analysis" := analysis]> ∅)).

Definition run_analysis (query : string) : M W pydict :=
  try_except
    (election_params <- parse_election_query query ;;
     log INFO "Starting data collection..." ;;;
     raw_data <- DataCollector.collect E election_params ;;
     log INFO "Analyzing news content..." ;;;
     news_data <- lift (dict_getitem raw_data "news") ;;
     news_analysis <- analyze_source "articles" news_data "news article" ;;
     log INFO "Analyzing social media content..." ;;;
     social <- lift (dict_getitem raw_data "social") ;;
     social_data <- lift (py_getitem social "twitter") ;;
     social_analysis <- analyze_source "tweets" social_data "social media" ;;
     log INFO "Generating predictions..." ;;;
     news_text <- lift (dict_getitem news_analysis "analysis") ;;
     social_text <- lift (dict_getitem social_analysis "analysis") ;;
     predictions <- request (HandlerPredict [news_text; social_text])
                            (handler_predict E [news_text; social_text]) ;;
     timestamp <- now E ;;
     ret (<["timestamp" := PyStr (isoformat E timestamp)]>
         (<["query_parameters" := PyDict election_params]>
         (<["news_analysis" := PyDict news_analysis]>
         (<["social_analysis" := PyDict social_analysis]>
         (<["predictions" := predictions]> ∅))))))
    (fun e =>
       log ERROR ("Error in analysis pipeline: " ++ str_exc e) ;;;
       raise e).

Definition generate_report (R : report_env W) (analysis_results : pydict) : M W string :=
  try_except
    (log INFO "Generating analysis report..." ;;;
     report_path <- ReportGenerator.generate E R analysis_results ;;
     log INFO ("Report generated successfully at: " ++ report_path) ;;;
     ret report_path)
    (fun e =>
       log ERROR ("Error generating report: " ++ str_exc e) ;;;
       raise e).
End WithEnv.
End ElectionResearchSystem.

(** ** [download_model.py] *)

Module DownloadModel.

(** The answer to [requests.get(url, stream=True)]: its [content-length]
    header, the chunks that [iter_content(chunk_size=4096)] yields, and the
    exception that breaks the stream after them, if one does. *)
Record response : Type := Response {
  content_length : option string;
  body : list (list Byte.byte);
  broken : option exc
}.

(** The machine the script runs on: the network, the directories and the
    files of the working directory, what was printed and what was
    requested.  Creating a file and writing to it succeed. *)
Record machine (W : Type) : Type := Machine {
  net : W;
  dirs : gset string;
  files : gmap string (list Byte.byte);
  stdout : list string;
  requested : list string
}.
Arguments Machine {W} _ _ _ _ _.
Arguments net {W} _.
Arguments dirs {W} _.
Arguments files {W} _.
Arguments stdout {W} _.
Arguments requested {W} _.

Section WithNetwork.
Context {W : Type}.
(** [requests.get(url, stream=True)] *)
Variable requests_get_stream : string -> W -> res response * W.
(** [int(text)] *)
Variable py_int : string -> res Z.
(** [int(50 * downloaded / total_size)], a division of floats *)
Variable progress_done : Z -> Z -> Z.

Definition model_name : string := "llama-2-7b-chat.Q4_K_M.gguf".

Definition model_path : string := "models/" ++ model_name.

Definition model_url : string :=
  "https://huggingface.co/TheBloke/Llama-2-7B-Chat-GGUF/resolve/main/llama-2-7b-chat.Q4_K_M.gguf".

(** [Path(dir).mkdir(exist_ok=True)]: a file of that name is in the way,
    a directory of that name is accepted. *)
Definition mkdir (dir : string) (m : machine W) : res unit * machine W :=
  if bool_decide (dir ∈ dom (files m))
  then (Err (Exc (External "FileExistsError") ("[Errno 17] File exists: '" ++ dir ++ "'")), m)
  else (Ok tt, Machine (net m) ({[dir]} ∪ dirs m) (files m) (stdout m) (requested m)).

(** [path.exists()] *)
Definition path_exists (path : string) (m : machine W) : bool :=
  bool_decide (path ∈ dom (files m)) || bool_decide (path ∈ dirs m).

(** [print(text, end=...)]; [text] includes the end. *)
Definition print (text : string) (m : machine W) : machine W :=
  Machine (net m) (dirs m) (files m) (stdout m ++ [text]) (requested m).

(** [open(path, 'wb')] *)
Definition create_file (path : string) (m : machine W) : machine W :=
  Machine (net m) (dirs m) (<[path := []]> (files m)) (stdout m) (requested m).

(** [f.write(data)] *)
Definition append_file (path : string) (data : list Byte.byte) (m : machine W) : machine W :=
  Machine (net m) (dirs m)
          (<[path := (default [] (files m !! path) ++ data)%list]> (files m))
          (stdout m) (requested m).

Definition get (url : string) (m : machine W) : res response * machine W :=
  let (r, w) := requests_get_stream url (net m) in
  (r, Machine w (dirs m) (files m) (stdout m) (requested m ++ [url])).

(** [int(response.headers.get('content-length', 0))] *)
Definition total_size_of (r : response) : res Z :=
  match content_length r with
  | Some text => py_int text
  | None => Ok 0
  end.

(** [text * n]: empty when [n] is not positive. *)
Definition times (text : string) (n : Z) : string :=
  String.concat "" (replicate (Z.to_nat n) text).

Definition cr : string := String (Ascii.ascii_of_nat 13) "".

Definition progress_text (downloaded total_size : Z) : string :=
  let done := progress_done downloaded total_size in
  cr ++ "Downloading: [" ++ times "=" done ++ times " " (50 - done) ++ "] "
     ++ pretty downloaded ++ "/" ++ pretty total_size ++ " bytes".

(** The loop over [response.iter_content(chunk_size=4096)]. *)
Fixpoint write_chunks (total_size downloaded : Z) (chunks : list (list Byte.byte))
    (m : machine W) : machine W :=
  match chunks with
  | [] => m
  | data :: rest =>
      let downloaded' := downloaded + Z.of_nat (length data) in
      write_chunks total_size downloaded' rest
        (print (progress_text downloaded' total_size) (append_file model_path data m))
  end.

Definition complete (m : machine W) : res unit * machine W :=
  (Ok tt, print (nl ++ "Download complete!" ++ nl) m).

Definition download_model (m : machine W) : res unit * machine W :=
  match mkdir "models" m with
  | (Err e, m1) => (Err e, m1)
  | (Ok _, m1) =>
      if path_exists model_path m1
      then (Ok tt, print ("Model already exists at " ++ model_path ++ nl) m1)
      else
        let m2 :=
          print ("This might take a while depending on your internet connection." ++ nl)
            (print ("Downloading " ++ model_name ++ "..." ++ nl) m1) in
        match get model_url m2 with
        | (Err e, m3) => (Err e, m3)
        | (Ok response, m3) =>
            match total_size_of response with
            | Err e => (Err e, m3)
            | Ok total_size =>
                let m4 := create_file model_path m3 in
                if total_size =? 0
                then
                  (* f.write(response.content) *)
                  match broken response with
                  | Some e => (Err e, m4)
                  | None => complete (append_file model_path (concat (body response)) m4)
                  end
                else
                  let m5 := write_chunks total_size 0 (body response) m4 in
                  match broken response with
                  | Some e => (Err e, m5)
                  | None => complete m5
                  end
            end
        end
  end.
End WithNetwork.
End DownloadModel.

(** ** The outcomes of a run, item by item *)

Definition oks {A} (outcomes : list (res A)) : list A :=
  omap (fun o => match o with Ok a => Some a | Err _ => None end) outcomes.

Definition count_ok {A} (outcomes : list (res A)) : nat :=
  length (List.filter is_Ok outcomes).

Definition count_err {A} (outcomes : list (res A)) : nat :=
  length (List.filter is_Err outcomes).

Definition is_warning (entry : level * string) : bool :=
  match fst entry with
  | WARNING => true
  | _ => false
  end.

Section Outcomes.
Context {W : Type} (E : env W).



(** What [process_article] does for each article of the answer, in the
    states the loop of [_collect_news] goes through from [s]. *)
Fixpoint article_run (articles : list pyval) (s : state W) : list (res pydict) :=
  match articles with
  | [] => []
  | article :: rest =>
      fst (DataCollector.process_article E article s)
        :: article_run rest (snd (DataCollector.collect_article E article [] s))
  end.

(** The answer of every service is a function of the request alone. *)
Record deterministic : Prop := {
  det_llm : forall m w w', fst (llm E m w) = fst (llm E m w');
  det_newspaper : forall u n w w', fst (newspaper E u n w) = fst (newspaper E u n w');
  det_requests_get : forall u p w w', fst (requests_get E u p w) = fst (requests_get E u p w');
  det_search_tweets :
    forall q m l w w', fst (search_tweets E q m l w) = fst (search_tweets E q m l w');
  det_handler_parse : forall q w w', fst (handler_parse E q w) = fst (handler_parse E q w');
  det_handler_analyze :
    forall c k w w', fst (handler_analyze E c k w) = fst (handler_analyze E c k w');
  det_handler_predict :
    forall a w w', fst (handler_predict E a w) = fst (handler_predict E a w')
}.
End Outcomes.

(** Equality of two Run Results in every field except [timestamp]. *)
Definition same_but_timestamp (r1 r2 : pydict) : Prop :=
  delete "timestamp" r1 = delete "timestamp" r2.

(** An Item Analysis as the analyzer produces it: a record with an error
    carries no analysis text, and an analysis text is a string. *)
Definition item_analysis (a : pydict) : Prop :=
  (has_key a "error" = true -> a !! "llm_analysis" = None)
  /\ (forall v, a !! "llm_analysis" = Some v -> exists t, v = PyStr t).

Definition analysis_text (a : pydict) : option string :=
  match a !! "llm_analysis" with
  | Some (PyStr t) => Some t
  | _ => None
  end.

(** The analysis texts of the records without an error. *)
Definition valid_texts (analyzed_articles : list pydict) : list string :=
  omap analysis_text (List.filter (fun a => negb (has_key a "error")) analyzed_articles).

(** ** Vocabulary of the further properties *)

(** The search term of an optional string parameter: none when it is
    missing or empty. *)
Definition given (value : option string) : list string :=
  match value with
  | Some v => if String.eqb v "" then [] else [v]
  | None => []
  end.

(** A candidate name in double quotes. *)
Definition quoted (name : string) : string :=
  DataCollector.dquote ++ name ++ DataCollector.dquote.

Definition is_error_entry (entry : level * string) : bool :=
  match fst entry with
  | ERROR => true
  | _ => false
  end.

Definition is_llm_call (c : call) : bool :=
  match c with
  | LlmInvoke _ => true
  | _ => false
  end.

(** The fields of a collected article. *)
Definition article_record (a : pydict) : Prop :=
  dom a = {["url"; "title"; "text"; "published_at"; "source"]}
  /\ exists text, a !! "text" = Some (PyStr text).

(** The text of a collected item. *)
Definition text_of (a : pydict) : string :=
  match a !! "text" with
  | Some (PyStr text) => text
  | _ => ""
  end.

Section LogDiscipline.
Context {W : Type}.

(** Programs that only add to the log and add no [ERROR] entry when they
    return. *)
Definition logs_errors_only_when_raising {A} (m : M W A) : Prop :=
  forall s, exists more,
    logs (snd (m s)) = (logs s ++ more)%list
    /\ (is_Ok (fst (m s)) = true -> Forall (fun entry => is_error_entry entry = false) more).
End LogDiscipline.

(** ** The predictor *)

Module PredictionModel.

Record prediction_result : Type := PredictionResult {
  confidence : Q;
  predictions : gmap string Q
}.

Section Placeholder.
Variables neutral_probability neutral_confidence : Q.

(** Modelled from the spec: the predictor ([models/prediction_model.py]
    and [generate_prediction] of [models/local_llm.py]) is not among the
    sources.  The spec describes it as a placeholder that returns
    neutral values: one probability per candidate name supplied and one
    confidence, and for zero candidates the empty mapping with
    confidence 0.  The two placeholder values are parameters. *)
Definition predict (candidates : list string) : prediction_result :=
  match candidates with
  | [] => PredictionResult 0 ∅
  | _ =>
      PredictionResult neutral_confidence
        (list_to_map ((fun c => (c, neutral_probability)) <$> candidates))
  end.
End Placeholder.
End PredictionModel.

(** ** Stub collaborators *)

Module Stub.

(** The article library: a URL that starts with [bad] cannot be
    downloaded, a URL that starts with [odd] breaks the parser with an
    exception of another class. *)
Definition article (url : pyval) : res parsed_article :=
  match url with
  | PyStr u =>
      if String.prefix "bad" u
      then Err (Exc ArticleException "Article `download()` failed")
      else if String.prefix "odd" u
      then Err (Exc ValueError "unexpected markup")
      else Ok (ParsedArticle u ("text of " ++ u) ("summary of " ++ u) ["election"] None)
  | _ => Err (Exc TypeError "expected a URL")
  end.

(** The chat model echoes a fixed string and fails on the article
    titled [item3]. *)
Definition chat (messages : list message) : res string :=
  match messages with
  | [_; HumanMessage content] =>
      if String.prefix "Title: item3" content
      then Err (Exc (External "ServiceError") "simulated service failure")
      else Ok "fixed analysis"
  | _ => Ok "fixed analysis"
  end.

Definition prediction : pyval :=
  PyDict (<["confidence" := PyFloat (1 # 2)]>
         (<["predictions" := PyDict (<["A" := PyFloat (1 # 2)]> (<["B" := PyFloat (1 # 2)]> ∅))]>
          ∅)).

(** The world is the clock; the services answer from the request alone
    and let the clock tick. *)
Definition stub_env (parsed : res pydict) (response : res pyval) (statuses : res (list status))
  : env Z :=
  {| llm := fun m w => (chat m, w + 1);
     newspaper := fun u _ w => (article u, w + 1);
     requests_get := fun _ _ w => (response, w + 1);
     search_tweets := fun _ _ _ w => (statuses, w + 1);
     clock := fun w => (w, w + 1);
     handler_parse := fun _ w => (parsed, w + 1);
     handler_analyze := fun _ kind w => (Ok (PyStr ("analysis of " ++ kind)), w + 1);
     handler_predict := fun _ w => (Ok prediction, w + 1);
     news_api_key := PyStr "key";
     strftime_ymd := pretty;
     isoformat := pretty;
     str_other := fun _ => "<object>";
     dict_keys := fun d => (map_to_list d).*1;
     lt_other := fun a b =>
       Err (Exc TypeError ("'<' not supported between instances of '" ++ type_name a
                             ++ "' and '" ++ type_name b ++ "'")) |}.

Definition start : state Z := State 0 [] [].

(** Query parameters of the end-to-end scenario. *)
Definition params : pydict :=
  <["election_type" := PyStr "presidential"]>
  (<["country" := PyStr "USA"]>
  (<["candidates" := PyList [PyStr "A"; PyStr "B"]]> ∅)).

Definition news_item (url : string) : pyval :=
  PyDict (<["url" := PyStr url]>
         (<["title" := PyStr ("title of " ++ url)]>
         (<["publishedAt" := PyStr "2024-01-01"]>
         (<["source" := PyDict (<["name" := PyStr "wire"]> ∅)]> ∅)))).

Definition tweet (n : Z) : status :=
  Status n "a tweet" (1000 + n) "someone" 0 0.

Definition news_response (articles : list pyval) : pyval :=
  PyDict (<["articles" := PyList articles]> ∅).

(** Three articles and two tweets. *)
Definition scenario : env Z :=
  stub_env (Ok params)
           (Ok (news_response [news_item "n1"; news_item "n2"; news_item "n3"]))
           (Ok [tweet 1; tweet 2]).

(** Both sources answer with nothing. *)
Definition nothing_found : env Z :=
  stub_env (Ok params) (Ok (news_response [])) (Ok []).

(** The second of three articles cannot be downloaded. *)
Definition one_unreachable : env Z :=
  stub_env (Ok params)
           (Ok (news_response [news_item "n1"; news_item "bad2"; news_item "n3"]))
           (Ok [tweet 1; tweet 2]).

(** An article of the answer without a [title]. *)
Definition untitled_item (url : string) : pyval :=
  PyDict (<["url" := PyStr url]>
         (<["publishedAt" := PyStr "2024-01-01"]>
         (<["source" := PyDict (<["name" := PyStr "wire"]> ∅)]> ∅))).

Definition one_untitled : env Z :=
  stub_env (Ok params)
           (Ok (news_response [untitled_item "n1"; news_item "n2"]))
           (Ok [tweet 1; tweet 2]).

(** The first of two articles breaks the parser. *)
Definition one_odd : env Z :=
  stub_env (Ok params)
           (Ok (news_response [news_item "odd1"; news_item "n2"]))
           (Ok [tweet 1; tweet 2]).

Definition item (url : string) : pydict := <["url" := PyStr url]> ∅.

Definition five_items : list pydict :=
  [item "item1"; item "item2"; item "item3"; item "item4"; item "item5"].

Definition analyzed_item (url text : string) : pydict :=
  <["url" := PyStr url]> (<["llm_analysis" := PyStr text]> ∅).

(** Two analyses around an error-only record. *)
Definition mixed : list pydict :=
  [ analyzed_item "item1" "first";
    NewsAnalyzer.error_analysis (item "item2")
      (Exc (External "ServiceError") "simulated service failure");
    analyzed_item "item3" "third" ].

Definition social_data : pydict :=
  <["twitter" := PyList (PyDict <$> (DataCollector.tweet_dict <$> [tweet 1; tweet 2]))]> ∅.

(** Numbers are formatted, anything else is refused; every file can be
    written. *)
Definition report_stub : report_env Z :=
  {| format_spec := fun v spec =>
       match v with
       | PyInt _ | PyFloat _ | PyBool _ => Ok ("<number" ++ spec ++ ">")
       | _ => Err (Exc TypeError ("unsupported format string passed to " ++ type_name v
                                    ++ ".__format__"))
       end;
     json_text := fun _ => "{...}";
     strftime_compact := pretty;
     strftime_seconds := pretty;
     write_text := fun _ _ w => (Ok tt, w + 1) |}.

(** A download of three chunks that breaks after the second. *)
Definition chunk (n : nat) : list Byte.byte := replicate n Byte.x2a.

Definition broken_download (url : string) (w : Z) : res DownloadModel.response * Z :=
  (Ok (DownloadModel.Response (Some "10") [chunk 4; chunk 4]
         (Some (Exc (External "ChunkedEncodingError") "Connection broken"))),
   w + 1).

Definition whole_download (url : string) (w : Z) : res DownloadModel.response * Z :=
  (Ok (DownloadModel.Response (Some "10") [chunk 4; chunk 4; chunk 2] None), w + 1).

Definition parse_int (text : string) : res Z :=
  if String.eqb text "10" then Ok 10
  else Err (Exc ValueError ("invalid literal for int() with base 10: '" ++ text ++ "'")).

Definition fresh_machine : DownloadModel.machine Z :=
  DownloadModel.Machine 0 ∅ ∅ [] [].

(** The machine after an earlier download. *)
Definition stocked_machine : DownloadModel.machine Z :=
  DownloadModel.Machine 0 {["models"]} {[DownloadModel.model_path := chunk 10]} [] [].

Definition no_network (url : string) (w : Z) : res DownloadModel.response * Z :=
  (Err (Exc (External "ConnectionError") "Failed to establish a new connection"), w + 1).

Definition progress (downloaded total_size : Z) : Z := 50 * downloaded / total_size.

(** Parameters whose optional lists are [None]. *)
Definition params_with_none : pydict :=
  <["keywords" := PyNone]> (<["hashtags" := PyNone]> params).

(** The candidate given as one string. *)
Definition one_name : pydict := <["candidates" := PyStr "Ann"]> ∅.

(** The news API answers without [articles]. *)
Definition no_articles : env Z :=
  stub_env (Ok params) (Ok (PyDict (<["status" := PyStr "ok"]> ∅))) (Ok [tweet 1]).

(** The news API cannot be reached. *)
Definition news_down : env Z :=
  stub_env (Ok params)
           (Err (Exc (External "ConnectionError") "Failed to establish a new connection"))
           (Ok [tweet 1]).

(** The environment [E] with another chat model. *)
Definition with_chat (E : env Z) (answer : list message -> res string) : env Z :=
  {| llm := fun m w => (answer m, w + 1);
     newspaper := newspaper E;
     requests_get := requests_get E;
     search_tweets := search_tweets E;
     clock := clock E;
     handler_parse := handler_parse E;
     handler_analyze := handler_analyze E;
     handler_predict := handler_predict E;
     news_api_key := news_api_key E;
     strftime_ymd := strftime_ymd E;
     isoformat := isoformat E;
     str_other := str_other E;
     dict_keys := dict_keys E;
     lt_other := lt_other E |}.



(** The chat model fails on the article titled [item3] with an exception
    that carries no message. *)
Definition chat_silent_failure (messages : list message) : res string :=
  match messages with
  | [_; HumanMessage content] =>
      if String.prefix "Title: item3" content
      then Err (Exc (External "ServiceError") "")
      else Ok "fixed analysis"
  | _ => Ok "fixed analysis"
  end.

Definition silent_failure : env Z := with_chat scenario chat_silent_failure.

(** A result without tweets, as a caller may hand it to the report. *)
Definition plain_result : pydict :=
  <["predictions" := prediction]>
  (<["news_analysis" := PyDict (<["article_count" := PyInt 3]> ∅)]> ∅).
End Stub.

(** * Properties *)

(** ** Running a program *)

Section MonadFacts.
Context {W : Type}.

Lemma bind_run {A B} (m : M W A) (k : A -> M W B) s :
  bind m k s = match m s with
               | (Ok a, s') => k a s'
               | (Err e, s') => (Err e, s')
               end.
Proof. reflexivity. Qed.

Lemma bind_lift_ok {A B} (r : res A) (k : A -> M W B) a s :
  r = Ok a -> bind (lift r) k s = k a s.
Proof. intros ->. reflexivity. Qed.

Lemma try_except_run {A} (m : M W A) (h : exc -> M W A) s :
  try_except m h s = match m s with
                     | (Ok a, s') => (Ok a, s')
                     | (Err e, s') => h e s'
                     end.
Proof. reflexivity. Qed.

(** A handler that logs and raises again passes the exception on. *)
Lemma log_and_raise_run {A} (m : M W A) (msg : exc -> string) s :
  fst (try_except m (fun e => log ERROR (msg e) ;;; raise e) s) = fst (m s).
Proof.
  unfold try_except. destruct (m s) as [[a|e] s']; reflexivity.
Qed.

Lemma keeps_logs_lift {A} (r : res A) : keeps_logs (W := W) (lift r).
Proof. by intros s. Qed.

Lemma keeps_logs_ret {A} (a : A) : keeps_logs (W := W) (ret a).
Proof. by intros s. Qed.

Lemma keeps_logs_request {A} c (o : W -> res A * W) : keeps_logs (request c o).
Proof. intros s. unfold request. by destruct (o (world s)). Qed.

Lemma keeps_logs_bind {A B} (m : M W A) (k : A -> M W B) :
  keeps_logs m -> (forall a, keeps_logs (k a)) -> keeps_logs (bind m k).
Proof.
  intros Hm Hk s. rewrite bind_run. specialize (Hm s).
  destruct (m s) as [[a|e] s']; simpl in *; [|done].
  by rewrite Hk.
Qed.

Lemma sends_silent {A} P (m : M W A) :
  (forall s, sent (snd (m s)) = sent s) -> sends P m.
Proof. intros Hm s. exists []. by rewrite app_nil_r. Qed.

Lemma sends_lift {A} P (r : res A) : sends (W := W) P (lift r).
Proof. by apply sends_silent. Qed.

Lemma sends_ret {A} P (a : A) : sends (W := W) P (ret a).
Proof. by apply sends_silent. Qed.

Lemma sends_raise {A} P e : sends (W := W) P (raise (A := A) e).
Proof. by apply sends_silent. Qed.

Lemma sends_log P lv msg : sends (W := W) P (log lv msg).
Proof. by apply sends_silent. Qed.

Lemma sends_request {A} (P : call -> Prop) c (o : W -> res A * W) :
  P c -> sends P (request c o).
Proof.
  intros Hc s. exists [c]. unfold request.
  destruct (o (world s)). split; [done | by constructor].
Qed.

Lemma sends_bind {A B} P (m : M W A) (k : A -> M W B) :
  sends P m -> (forall a, sends P (k a)) -> sends P (bind m k).
Proof.
  intros Hm Hk s. rewrite bind_run. destruct (Hm s) as (l1 & H1 & HP1).
  destruct (m s) as [[a|e] s']; simpl in *; [|by exists l1].
  destruct (Hk a s') as (l2 & H2 & HP2).
  exists (l1 ++ l2)%list. rewrite H2, H1, <- app_assoc. split; [done|].
  by apply Forall_app.
Qed.

Lemma sends_try_except {A} P (m : M W A) (h : exc -> M W A) :
  sends P m -> (forall e, sends P (h e)) -> sends P (try_except m h).
Proof.
  intros Hm Hh s. rewrite try_except_run. destruct (Hm s) as (l1 & H1 & HP1).
  destruct (m s) as [[a|e] s']; simpl in *; [by exists l1|].
  destruct (Hh e s') as (l2 & H2 & HP2).
  exists (l1 ++ l2)%list. rewrite H2, H1, <- app_assoc. split; [done|].
  by apply Forall_app.
Qed.

Lemma sends_for_in {A B} P (l : list A) (body : A -> B -> M W B) acc :
  (forall x b, sends P (body x b)) -> sends P (for_in l body acc).
Proof.
  intros Hbody. revert acc. induction l as [|x l IH]; intros acc; simpl.
  - apply sends_ret.
  - apply sends_bind; [apply Hbody | apply IH].
Qed.
End MonadFacts.

(** Unfold the monad at the head of a run. *)
Ltac run_unfold :=
  unfold bind, lift, ret, raise, request, try_except_only, try_except, log, now in *;
  simpl in *.

(** Decide an equation between closed terms by evaluating both sides. *)
Ltac evaluated :=
  match goal with
  | |- ?lhs = _ => vm_cast_no_check (@eq_refl _ lhs)
  end.

(** ** The news analyzer *)

Section NewsAnalyzerFacts.
Context {W : Type} (E : env W).
Import NewsAnalyzer.

Lemma analyze_single_article_run article s :
  _analyze_single_article E article s =
    match analyze_article_body E article s with
    | (Ok analysis, s') => (Ok analysis, s')
    | (Err e, s') =>
        (Ok (error_analysis article e),
         State (world s')
               (logs s' ++ [(ERROR, "Error analyzing article "
                                      ++ py_str E (dict_get article "url" (PyStr "unknown"))
                                      ++ ": " ++ str_exc e)])
               (sent s'))
    end.
Proof.
  unfold _analyze_single_article, try_except.
  destruct (analyze_article_body E article s) as [[analysis|e] s']; reflexivity.
Qed.

(** A successful [try] block returns the six analysis fields, with the
    article's own URL. *)
Lemma analyze_article_body_ok article s analysis s' :
  analyze_article_body E article s = (Ok analysis, s') ->
  exists url parsed response,
    article !! "url" = Some url
    /\ analysis =
         <["url" := url]>
         (<["title" := PyStr (art_title parsed)]>
         (<["summary" := PyStr (art_summary parsed)]>
         (<["keywords" := PyList (PyStr <$> art_keywords parsed)]>
         (<["llm_analysis" := PyStr response]>
         (<["publication_date" := from_option PyDate PyNone (art_publish_date parsed)]>
          ∅))))).
Proof.
  unfold analyze_article_body, dict_getitem. run_unfold.
  destruct (article !! "url") as [url|] eqn:Hurl; simpl; [|discriminate].
  destruct (newspaper E url true (world s)) as [[parsed|e] w1]; simpl; [|discriminate].
  destruct (llm E _ w1) as [[response|e] w2]; simpl; [|discriminate].
  intros [= <- <-]. eauto.
Qed.

Lemma error_analysis_dom article e :
  dom (error_analysis article e) = {["error"; "url"]}.
Proof. unfold error_analysis. set_solver. Qed.






(** *** Aggregation *)

Lemma join_items_strings i (texts : list string) :
  join_items i (PyStr <$> texts) = Ok texts.
Proof.
  revert i. induction texts as [|t texts IH]; intros i; simpl; [done|].
  by rewrite IH.
Qed.

Lemma py_join_strings sep (texts : list string) :
  py_join sep (PyStr <$> texts) = Ok (String.concat sep texts).
Proof. unfold py_join. by rewrite join_items_strings. Qed.

(** On Item Analyses the comprehension selects the analysis texts of the
    records without an error. *)
Lemma llm_analyses_valid analyzed_articles :
  Forall item_analysis analyzed_articles ->
  llm_analyses analyzed_articles = Ok (PyStr <$> valid_texts analyzed_articles).
Proof.
  unfold llm_analyses, valid_texts.
  induction 1 as [|a l [Herr Hstr] _ IH]; [done|].
  cbn [List.filter].
  destruct (a !! "llm_analysis") as [v|] eqn:Hv.
  - destruct (Hstr v eq_refl) as [t ->].
    assert (has_key a "llm_analysis" = true) as -> by (unfold has_key; by rewrite Hv).
    assert (has_key a "error" = false) as ->.
    { destruct (has_key a "error"); [by specialize (Herr eq_refl) | done]. }
    cbn [negb res_map omap list_omap]. rewrite IH.
    unfold dict_getitem, analysis_text. rewrite Hv. reflexivity.
  - assert (has_key a "llm_analysis" = false) as -> by (unfold has_key; by rewrite Hv).
    rewrite IH. destruct (has_key a "error"); cbn [negb omap list_omap]; [done|].
    unfold analysis_text. by rewrite Hv.
Qed.

(** On Item Analyses the aggregation sends one request to the model, with
    the concatenation of the valid texts, and fails only if the model
    does. *)
Lemma aggregate_analysis_run analyzed_articles s :
  Forall item_analysis analyzed_articles ->
  let request := LlmInvoke (meta_messages (String.concat (nl ++ nl) (valid_texts analyzed_articles))) in
  _aggregate_analysis E analyzed_articles s =
    match llm E (meta_messages (String.concat (nl ++ nl) (valid_texts analyzed_articles))) (world s) with
    | (Ok meta, w) =>
        (Ok (aggregate meta analyzed_articles), State w (logs s) (sent s ++ [request]))
    | (Err e, w) =>
        (Err e,
         State w (logs s ++ [(ERROR, "Error in aggregating analysis: " ++ str_exc e)])
               (sent s ++ [request]))
    end.
Proof.
  intros Hwf. unfold _aggregate_analysis.
  rewrite try_except_run, bind_run. unfold lift at 1.
  rewrite (llm_analyses_valid _ Hwf), bind_run. unfold lift at 1.
  rewrite py_join_strings, bind_run. unfold request at 1.
  destruct (llm E _ (world s)) as [[meta|e] w]; reflexivity.
Qed.

Lemma valid_texts_app l1 l2 :
  valid_texts (l1 ++ l2) = (valid_texts l1 ++ valid_texts l2)%list.
Proof. unfold valid_texts. by rewrite List.filter_app, omap_app. Qed.


(** C2. [_analyze_single_article] never raises to its caller, whatever the
    article and whatever the article library and the model do: it returns
    a record, and the record carries the identifier, the article's URL or
    ['unknown'] when the article has none.  When the [try] block fails
    with an exception [e], the record holds the two fields [error] and
    [url] and nothing else, with [str(e)] as the error. *)
Theorem analyze_single_article_never_raises (article : pydict) (s : state W) :
  exists analysis s',
    _analyze_single_article E article s = (Ok analysis, s')
    /\ analysis !! "url" = Some (dict_get article "url" (PyStr "unknown"))
    /\ match fst (analyze_article_body E article s) with
       | Ok analysis0 => analysis = analysis0
       | Err e =>
           analysis = error_analysis article e
           /\ dom analysis = {["error"; "url"]}
           /\ analysis !! "error" = Some (PyStr (str_exc e))
       end.
Proof.
  rewrite analyze_single_article_run.
  destruct (analyze_article_body E article s) as [[analysis|e] s'] eqn:Hbody; simpl.
  - exists analysis, s'. split; [done|]. split; [|done].
    apply analyze_article_body_ok in Hbody as (url & parsed & response & Hurl & ->).
    unfold dict_get. rewrite Hurl. by simplify_map_eq.
  - eexists _, _. split; [done|]. split; [|split; [done|split]].
    + unfold error_analysis. by simplify_map_eq.
    + apply error_analysis_dom.
    + unfold error_analysis. by simplify_map_eq.
Qed.



(** C8. On Item Analyses, [_aggregate_analysis] sends the model one
    meta-analysis request, the system prompt followed by one human message
    whose text is the concatenation of the analysis texts of the records
    without an error: a record with its [error] field set contributes
    nothing to it.  The aggregate that comes back still holds every
    record, the error-only ones included. *)
Theorem meta_analysis_excludes_error_records (analyzed : list pydict) (s : state W) :
  Forall item_analysis analyzed ->
  sent (snd (_aggregate_analysis E analyzed s))
    = (sent s
         ++ [LlmInvoke
               [ SystemMessage "You are an expert political analyst. Provide a meta-analysis of these news analyses.";
                 HumanMessage (String.concat (nl ++ nl) (valid_texts analyzed)) ]])%list
  /\ (forall l1 a l2,
        analyzed = (l1 ++ a :: l2)%list -> has_key a "error" = true ->
        valid_texts analyzed = valid_texts (l1 ++ l2))
  /\ match fst (llm E
                  [ SystemMessage "You are an expert political analyst. Provide a meta-analysis of these news analyses.";
                    HumanMessage (String.concat (nl ++ nl) (valid_texts analyzed)) ]
                  (world s)) with
     | Ok meta =>
         exists agg,
           fst (_aggregate_analysis E analyzed s) = Ok agg
           /\ agg !! "individual_analyses" = Some (PyList (PyDict <$> analyzed))
     | Err e => fst (_aggregate_analysis E analyzed s) = Err e
     end.
Proof.
  intros Hwf. rewrite (aggregate_analysis_run analyzed s Hwf). unfold meta_messages.
  split; [|split].
  - by destruct (llm E _ (world s)) as [[meta|e] w].
  - intros l1 a l2 -> Ha. rewrite !valid_texts_app.
    f_equal. unfold valid_texts. simpl. by rewrite Ha.
  - destruct (llm E _ (world s)) as [[meta|e] w]; simpl; [|done].
    eexists. split; [done|]. unfold aggregate. by simplify_map_eq.
Qed.
End NewsAnalyzerFacts.

(** ** The social media analyzer *)

Section SocialMediaAnalyzerFacts.
Context {W : Type} (E : env W).
Import SocialMediaAnalyzer.

(** With no tweets the model is asked about an empty text; if it answers,
    [min] over the empty sequence raises. *)
Lemma analyze_twitter_no_tweets s :
  fst (_analyze_twitter E (PyList []) s) =
    match fst (llm E (twitter_messages "") (world s)) with
    | Ok _ => Err (Exc ValueError "min() arg is an empty sequence")
    | Err e => Err e
    end.
Proof.
  unfold _analyze_twitter. rewrite log_and_raise_run.
  run_unfold. by destruct (llm E _ (world s)) as [[analysis|e] w].
Qed.

Lemma calculate_overall_sentiment_run twitter_analysis (s : state W) :
  _calculate_overall_sentiment twitter_analysis s = (Ok (PyFloat 0), s).
Proof. reflexivity. Qed.

(** C1. With zero tweets [_analyze_twitter] raises on every run: the
    exception of the model when the model fails, and otherwise the
    [ValueError] of [min] over an empty sequence; [analyze] raises with it,
    for an empty list of tweets and for a missing one.  The news
    aggregation, given zero analyses, returns an aggregate that counts 0
    whenever the model answers. *)
Theorem analyze_twitter_raises_on_no_tweets (s : state W) :
  is_Err (fst (_analyze_twitter E (PyList []) s)) = true
  /\ match fst (llm E (twitter_messages "") (world s)) with
     | Ok _ => fst (_analyze_twitter E (PyList []) s) = Err (Exc ValueError "min() arg is an empty sequence")
     | Err e => fst (_analyze_twitter E (PyList []) s) = Err e
     end
  /\ is_Err (fst (analyze E (<["twitter" := PyList []]> ∅) s)) = true
  /\ is_Err (fst (analyze E ∅ s)) = true
  /\ match fst (llm E (NewsAnalyzer.meta_messages "") (world s)) with
     | Ok meta =>
         exists agg,
           fst (NewsAnalyzer._aggregate_analysis E [] s) = Ok agg
           /\ agg !! "article_count" = Some (PyInt 0)
           /\ agg !! "meta_analysis" = Some (PyStr meta)
     | Err e => fst (NewsAnalyzer._aggregate_analysis E [] s) = Err e
     end.
Proof.
  assert (is_Err (fst (_analyze_twitter E (PyList []) s)) = true) as Hraises.
  { rewrite analyze_twitter_no_tweets. by destruct (fst (llm E _ (world s))). }
  split; [done|]. split; [|split; [|split]].
  - rewrite analyze_twitter_no_tweets. by destruct (fst (llm E _ (world s))).
  - unfold analyze. rewrite log_and_raise_run, bind_run.
    change (dict_get (<["twitter" := PyList []]> ∅) "twitter" (PyList [])) with (PyList []).
    by destruct (_analyze_twitter E (PyList []) s) as [[r|e] s'].
  - unfold analyze. rewrite log_and_raise_run, bind_run.
    change (dict_get ∅ "twitter" (PyList [])) with (PyList []).
    by destruct (_analyze_twitter E (PyList []) s) as [[r|e] s'].
  - rewrite (aggregate_analysis_run E [] s (List.Forall_nil _)).
    change (String.concat (nl ++ nl) (valid_texts [])) with "".
    destruct (llm E _ (world s)) as [[meta|e] w]; simpl; [|done].
    eexists. split; [done|]. unfold NewsAnalyzer.aggregate. by simplify_map_eq.
Qed.

(** C10. Whenever [analyze] returns, the [overall_sentiment] of its result
    is 0.0: [_calculate_overall_sentiment] returns 0.0 for every argument
    and in every state, without looking at the Twitter analysis. *)
Theorem overall_sentiment_is_constant (social_data result : pydict) (s s' : state W) :
  analyze E social_data s = (Ok result, s') ->
  result !! "overall_sentiment" = Some (PyFloat 0)
  /\ forall twitter_analysis (s0 : state W),
       _calculate_overall_sentiment twitter_analysis s0 = (Ok (PyFloat 0), s0).
Proof.
  intros Hrun. split; [|done].
  unfold analyze in Hrun. rewrite try_except_run, bind_run in Hrun.
  destruct (_analyze_twitter E _ s) as [[twitter_analysis|e] s1]; [|discriminate].
  rewrite bind_run in Hrun. unfold now at 1 in Hrun.
  destruct (clock E (world s1)) as [t w]. simpl in Hrun.
  injection Hrun as <- _. by simplify_map_eq.
Qed.
End SocialMediaAnalyzerFacts.

(** ** The data collector *)

Section DataCollectorFacts.
Context {W : Type} (E : env W).
Import DataCollector.

(** Subscripting raises a [KeyError] or a [TypeError], never an
    [ArticleException]. *)
Lemma py_getitem_not_article_exception v k e :
  py_getitem v k = Err e -> is_article_exception e = false.
Proof.
  destruct v; simpl; try (intros [= <-]; reflexivity).
  unfold dict_getitem. destruct (d !! k); [discriminate|]. by intros [= <-].
Qed.

(** An [ArticleException] can only come from the article library, after
    the URL of the article was read. *)
Lemma process_article_article_exception article s e s' :
  process_article E article s = (Err e, s') ->
  is_article_exception e = true ->
  exists url, py_getitem article "url" = Ok url.
Proof.
  unfold process_article. rewrite bind_run. unfold lift at 1.
  destruct (py_getitem article "url") as [url|e0] eqn:Hurl; [eauto|].
  intros [= <- <-] He. apply py_getitem_not_article_exception in Hurl. congruence.
Qed.

(** Processing an article logs nothing. *)
Lemma process_article_logs article s :
  logs (snd (process_article E article s)) = logs s.
Proof.
  unfold process_article.
  repeat first [ apply keeps_logs_bind; [|intros ?]
               | apply keeps_logs_lift | apply keeps_logs_request | apply keeps_logs_ret ].
Qed.

Lemma collect_article_run article acc s :
  collect_article E article acc s =
    match process_article E article s with
    | (Ok processed, s') => (Ok (acc ++ [processed])%list, s')
    | (Err e, s') =>
        if is_article_exception e
        then match py_getitem article "url" with
             | Ok url =>
                 (Ok acc,
                  State (world s')
                        (logs s' ++ [(WARNING, "Error processing article " ++ py_str E url
                                                 ++ ": " ++ str_exc e)])
                        (sent s'))
             | Err e' => (Err e', s')
             end
        else (Err e, s')
    end.
Proof.
  unfold collect_article, try_except_only. rewrite try_except_run, bind_run.
  destruct (process_article E article s) as [[processed|e] s']; [done|].
  destruct (is_article_exception e); [|done].
  rewrite bind_run. unfold lift at 1.
  by destruct (py_getitem article "url").
Qed.

(** The state an iteration leaves does not depend on the list built so
    far. *)
Lemma collect_article_state article acc s :
  snd (collect_article E article acc s) = snd (collect_article E article [] s).
Proof.
  rewrite !collect_article_run.
  destruct (process_article E article s) as [[processed|e] s']; [done|].
  destruct (is_article_exception e); [|done].
  by destruct (py_getitem article "url").
Qed.

(** When every article is processed or fails with an [ArticleException],
    the loop returns the processed articles in order and logs one warning
    per failure. *)
Lemma collect_loop_run articles acc s :
  Forall (fun o => forall e, o = Err e -> is_article_exception e = true)
         (article_run E articles s) ->
  exists s',
    for_in articles (collect_article E) acc s
      = (Ok (acc ++ oks (article_run E articles s))%list, s')
    /\ length (List.filter is_warning (logs s'))
       = (length (List.filter is_warning (logs s)) + count_err (article_run E articles s))%nat.
Proof.
  revert acc s. induction articles as [|article rest IH]; intros acc s Hrun.
  - exists s. simpl. unfold ret, count_err. simpl. rewrite app_nil_r. split; [done | lia].
  - simpl in Hrun. apply Forall_cons in Hrun as [Hhead Hrest].
    cbn [for_in article_run]. rewrite bind_run.
    pose proof (collect_article_state article acc s) as Hstate.
    rewrite collect_article_run in Hstate |- *.
    pose proof (process_article_logs article s) as Hlogs.
    destruct (process_article E article s) as [[processed|e] s1] eqn:Hproc; simpl in *.
    + rewrite <- Hstate in Hrest |- *.
      destruct (IH (acc ++ [processed])%list s1 Hrest) as (s' & -> & Hlog).
      exists s'. unfold oks in *. simpl. rewrite <- app_assoc. split; [done|].
      unfold count_err in *. simpl. rewrite Hlogs in Hlog. lia.
    + specialize (Hhead e eq_refl).
      destruct (process_article_article_exception _ _ _ _ Hproc Hhead) as [url Hurl].
      rewrite Hhead, Hurl in Hstate |- *. simpl in Hstate. rewrite <- Hstate in Hrest |- *.
      destruct (IH acc _ Hrest) as (s' & -> & Hlog).
      exists s'. split; [done|]. unfold count_err in *. simpl in *.
      rewrite List.filter_app, length_app in Hlog. rewrite Hlogs in Hlog |- *.
      simpl in Hlog. lia.
Qed.

(** A check of the outcomes that can be evaluated. *)
Lemma only_article_exceptions (outcomes : list (res pydict)) :
  forallb (fun o => match o with
                    | Ok _ => true
                    | Err e => is_article_exception e
                    end) outcomes = true ->
  Forall (fun o => forall e, o = Err e -> is_article_exception e = true) outcomes.
Proof.
  induction outcomes as [|o l IH]; simpl; [constructor|].
  intros [Ho Hl]%andb_prop. constructor; [|by apply IH].
  intros e ->. exact Ho.
Qed.

(** C4, as the code has it.  When the articles of the answer were obtained
    and every failure of an article is an [ArticleException] (the error of
    the article library for an article it cannot download or parse),
    [_collect_news] does not raise: each failing article is skipped with
    one warning and the processed articles are returned in order. *)
Theorem collect_news_skips_article_exceptions
    (params : pydict) (s s0 : state W) (articles : list pyval) :
  fetch_articles E params s = (Ok articles, s0) ->
  Forall (fun o => forall e, o = Err e -> is_article_exception e = true)
         (article_run E articles s0) ->
  exists s',
    _collect_news E params s = (Ok (oks (article_run E articles s0)), s')
    /\ length (oks (article_run E articles s0)) = count_ok (article_run E articles s0)
    /\ length (List.filter is_warning (logs s'))
       = (length (List.filter is_warning (logs s0)) + count_err (article_run E articles s0))%nat.
Proof.
  intros Hfetch Hrun.
  destruct (collect_loop_run articles [] s0 Hrun) as (s' & Hloop & Hlog).
  exists s'. unfold _collect_news. rewrite try_except_run, bind_run, Hfetch, Hloop.
  split; [done|]. split; [|done].
  clear. unfold oks, count_ok, is_Ok.
  induction (article_run E articles s0) as [|[a|e] l IH]; simpl in *; [done | by f_equal | done].
Qed.

(** *** What the collectors send *)

Lemma collect_article_sends article acc :
  sends (fun c => exists url, c = ArticleFetch url false) (collect_article E article acc).
Proof.
  unfold collect_article, try_except_only, process_article.
  apply sends_try_except.
  - repeat first [ apply sends_bind; [|intros ?] | apply sends_lift | apply sends_ret
                 | apply sends_request; eauto ].
  - intros e. destruct (is_article_exception e); [|apply sends_raise].
    repeat first [ apply sends_bind; [|intros ?] | apply sends_lift | apply sends_ret
                 | apply sends_log ].
Qed.

(** Once the query is built, the statements before the loop send one
    request: a GET of the news API with the election parameters. *)
Lemma fetch_articles_sent params s terms query :
  news_search_terms E params = Ok terms ->
  py_join " AND " terms = Ok query ->
  sent (snd (fetch_articles E params s)) = (sent s ++ [HttpGet base_url params])%list.
Proof.
  intros Hterms Hquery. unfold fetch_articles.
  rewrite (bind_lift_ok _ _ _ _ Hterms), (bind_lift_ok _ _ _ _ Hquery).
  rewrite bind_run. unfold now at 1. destruct (clock E (world s)) as [t w]. cbn [fst snd].
  rewrite bind_run. unfold request at 1. cbn [world logs sent].
  destruct (requests_get E base_url params w) as [[response|e] w'] ; [|done].
  rewrite bind_run. unfold lift.
  by destruct (py_get response "articles" (PyList [])).
Qed.

(** C5, at the news request.  Whenever the search expression can be built,
    the first request of [_collect_news] is a GET of the news API whose
    parameters are the election parameters it was given, and everything
    it sends afterwards is an article download.  The dictionary
    [api_params], which holds the search expression under [q] and the
    date seven days back under [from], is sent nowhere. *)
Theorem news_request_carries_election_params
    (params : pydict) (s : state W) (terms : list pyval) (query : string) :
  news_search_terms E params = Ok terms ->
  py_join " AND " terms = Ok query ->
  exists later,
    sent (snd (_collect_news E params s)) = (sent s ++ HttpGet base_url params :: later)%list
    /\ Forall (fun c => exists url, c = ArticleFetch url false) later
    /\ forall t,
         news_api_params E query t !! "q" = Some (PyStr query)
         /\ news_api_params E query t !! "from"
            = Some (PyStr (strftime_ymd E (t - 7 * seconds_per_day))).
Proof.
  intros Hterms Hquery.
  pose proof (fetch_articles_sent params s terms query Hterms Hquery) as Hfetch.
  assert (exists later,
             sent (snd (_collect_news E params s))
             = (sent s ++ HttpGet base_url params :: later)%list
             /\ Forall (fun c => exists url, c = ArticleFetch url false) later)
    as (later & Hsent & Hlater).
  { unfold _collect_news. rewrite try_except_run, bind_run.
    destruct (fetch_articles E params s) as [[articles|e] s0]; simpl in Hfetch.
    - destruct (sends_for_in _ articles (collect_article E) []
                  (collect_article_sends) s0) as (later & Hloop & Hlater).
      exists later. split; [|done].
      destruct (for_in articles (collect_article E) [] s0) as [[out|e] s1];
        simpl in *; rewrite Hloop, Hfetch, <- app_assoc; done.
    - exists []. split; [|done]. simpl. by rewrite Hfetch. }
  exists later. split; [done|]. split; [done|].
  intros t. unfold news_api_params. by simplify_map_eq.
Qed.

(** The Twitter collector returns at most 1000 tweets. *)
Lemma collect_twitter_bounded params s tweets s' :
  _collect_twitter E params s = (Ok tweets, s') ->
  (length tweets <= tweet_limit)%nat.
Proof.
  unfold _collect_twitter. rewrite try_except_run, !bind_run. unfold lift at 1.
  destruct (twitter_search_terms E params) as [terms|e]; [|discriminate].
  rewrite bind_run. unfold lift at 1.
  destruct (py_join " " terms) as [joined|e]; [|discriminate].
  rewrite bind_run. unfold request at 1.
  destruct (search_tweets E _ _ _ (world s)) as [[statuses|e] w]; [|discriminate].
  intros [= <- _]. rewrite length_fmap, length_take. lia.
Qed.
End DataCollectorFacts.

(** ** The pipeline *)

Section Agreement.
Context {W : Type}.

Lemma agree_ret {A} (R : A -> A -> Prop) a b : R a b -> agree (W := W) R (ret a) (ret b).
Proof. by intros HR s1 s2. Qed.

Lemma agree_raise {A} (R : A -> A -> Prop) e : agree (W := W) R (raise e) (raise e).
Proof. by intros s1 s2. Qed.

Lemma agree_lift {A} (r : res A) : agree (W := W) eq (lift r) (lift r).
Proof. intros s1 s2. by destruct r. Qed.

Lemma agree_log lv msg : agree (W := W) eq (log lv msg) (log lv msg).
Proof. by intros s1 s2. Qed.

Lemma agree_request {A} c (o : W -> res A * W) :
  (forall w w', fst (o w) = fst (o w')) -> agree eq (request c o) (request c o).
Proof.
  intros Ho s1 s2. unfold request. specialize (Ho (world s1) (world s2)).
  destruct (o (world s1)) as [r1 w1], (o (world s2)) as [r2 w2]. simpl in *. subst r2.
  by destruct r1.
Qed.

Lemma agree_bind {A B} (R : A -> A -> Prop) (R' : B -> B -> Prop)
    (m1 m2 : M W A) (k1 k2 : A -> M W B) :
  agree R m1 m2 -> (forall a b, R a b -> agree R' (k1 a) (k2 b)) ->
  agree R' (bind m1 k1) (bind m2 k2).
Proof.
  intros Hm Hk s1 s2. rewrite !bind_run. specialize (Hm s1 s2).
  destruct (m1 s1) as [[a|e1] s1'], (m2 s2) as [[b|e2] s2']; simpl in *; try done.
  by apply Hk.
Qed.

Lemma agree_bind_eq {A B} (R' : B -> B -> Prop) (m : M W A) (k1 k2 : A -> M W B) :
  agree eq m m -> (forall a, agree R' (k1 a) (k2 a)) -> agree R' (bind m k1) (bind m k2).
Proof. intros Hm Hk. apply (agree_bind eq); [done|]. intros a b <-. apply Hk. Qed.

Lemma agree_try_except {A} (R : A -> A -> Prop) (m1 m2 : M W A) (h1 h2 : exc -> M W A) :
  agree R m1 m2 -> (forall e, agree R (h1 e) (h2 e)) ->
  agree R (try_except m1 h1) (try_except m2 h2).
Proof.
  intros Hm Hh s1 s2. rewrite !try_except_run. specialize (Hm s1 s2).
  destruct (m1 s1) as [[a|e1] s1'], (m2 s2) as [[b|e2] s2']; simpl in *; try done.
  subst e2. apply Hh.
Qed.

(** A handler that logs and raises again. *)
Lemma agree_reraise {A} (R : A -> A -> Prop) (m1 m2 : M W A) (msg : exc -> string) :
  agree R m1 m2 ->
  agree R (try_except m1 (fun e => log ERROR (msg e) ;;; raise e))
          (try_except m2 (fun e => log ERROR (msg e) ;;; raise e)).
Proof.
  intros Hm. apply agree_try_except; [done|]. intros e.
  apply agree_bind_eq; [apply agree_log | intros _; apply agree_raise].
Qed.

Lemma agree_for_in {A B} (l : list A) (body : A -> B -> M W B) acc :
  (forall x b, agree eq (body x b) (body x b)) ->
  agree eq (for_in l body acc) (for_in l body acc).
Proof.
  intros Hbody. revert acc. induction l as [|x l IH]; intros acc; simpl.
  - by apply agree_ret.
  - apply agree_bind_eq; [apply Hbody | apply IH].
Qed.
End Agreement.

Section PipelineFacts.
Context {W : Type} (E : env W).
Import ElectionResearchSystem.

(** C7, as the code has it.  A failure to parse the query is fatal for the
    run: the exception of the parser is the exception of [run_analysis];
    so is an exception raised by the collection.  A collection that
    returns zero articles and zero tweets without raising is not an error:
    the run goes on with empty texts and, when the two content analyses
    and the prediction answer, returns a Run Result whose item lists are
    empty. *)
Theorem run_fatal_only_on_exceptions (query : string) (s : state W) :
  (forall e s1,
      parse_election_query E query s = (Err e, s1) ->
      fst (run_analysis E query s) = Err e)
  /\ (forall election_params s1 e s2,
        parse_election_query E query s = (Ok election_params, s1) ->
        DataCollector.collect E election_params (collecting s1) = (Err e, s2) ->
        fst (run_analysis E query s) = Err e)
  /\ (forall election_params s1 raw_data s2 social news_text w3 social_text w4 predictions w5,
        parse_election_query E query s = (Ok election_params, s1) ->
        DataCollector.collect E election_params (collecting s1) = (Ok raw_data, s2) ->
        raw_data !! "news" = Some (PyList []) ->
        raw_data !! "social" = Some (PyDict social) ->
        social !! "twitter" = Some (PyList []) ->
        handler_analyze E "" "news article" (world s2) = (Ok news_text, w3) ->
        handler_analyze E "" "social media" w3 = (Ok social_text, w4) ->
        handler_predict E [news_text; social_text] w4 = (Ok predictions, w5) ->
        exists result s',
          run_analysis E query s = (Ok result, s')
          /\ result !! "news_analysis"
             = Some (PyDict (<["articles" := PyList []]> (<["analysis" := news_text]> ∅)))
          /\ result !! "social_analysis"
             = Some (PyDict (<["tweets" := PyList []]> (<["analysis" := social_text]> ∅)))
          /\ result !! "predictions" = Some predictions).
Proof.
  split; [|split].
  - intros e s1 Hparse. unfold run_analysis.
    by rewrite log_and_raise_run, bind_run, Hparse.
  - intros election_params s1 e s2 Hparse Hcollect. unfold run_analysis.
    rewrite log_and_raise_run, bind_run, Hparse, bind_run. unfold log at 1.
    fold (collecting s1). by rewrite bind_run, Hcollect.
  - intros election_params s1 raw_data s2 social news_text w3 social_text w4 predictions w5
      Hparse Hcollect Hnews Hsocial Htwitter Hn Hs Hp.
    unfold run_analysis. rewrite try_except_run, bind_run, Hparse, bind_run. unfold log at 1.
    fold (collecting s1). rewrite bind_run, Hcollect.
    unfold analyze_source, dict_getitem. rewrite Hnews, Hsocial. run_unfold.
    rewrite Hn. simpl. unfold dict_getitem. rewrite Htwitter. simpl. rewrite Hs. simpl.
    rewrite lookup_insert_ne, lookup_insert_eq by done.
    rewrite lookup_insert_ne, lookup_insert_eq by done.
    rewrite Hp. simpl.
    destruct (clock E w5) as [t w6]. simpl.
    eexists _, _. split; [done|]. by simplify_map_eq.
Qed.
End PipelineFacts.

Section Determinism.
Context {W : Type} (E : env W).
Hypothesis det : deterministic E.
Import DataCollector ElectionResearchSystem.

Lemma agree_now : agree (fun _ _ => True) (now E) (now E).
Proof.
  intros s1 s2. unfold now.
  by destruct (clock E (world s1)), (clock E (world s2)).
Qed.

Ltac agree_services :=
  first [ apply (det_llm E det) | apply (det_newspaper E det)
        | apply (det_requests_get E det) | apply (det_search_tweets E det)
        | apply (det_handler_parse E det) | apply (det_handler_analyze E det)
        | apply (det_handler_predict E det) ].

Ltac agree_steps :=
  repeat first
    [ apply agree_lift | apply agree_log | apply agree_raise
    | apply agree_ret; reflexivity
    | apply agree_request; agree_services
    | apply agree_reraise
    | apply agree_bind_eq; [|intros ?] ].

Lemma collect_article_agrees article acc :
  agree eq (collect_article E article acc) (collect_article E article acc).
Proof.
  unfold collect_article, try_except_only, process_article.
  apply agree_try_except; [agree_steps|].
  intros e. destruct (is_article_exception e); agree_steps.
Qed.

Lemma fetch_articles_agrees params :
  agree eq (fetch_articles E params) (fetch_articles E params).
Proof.
  unfold fetch_articles.
  apply agree_bind_eq; [agree_steps | intros terms].
  apply agree_bind_eq; [agree_steps | intros query].
  apply (agree_bind (fun _ _ => True)); [apply agree_now | intros t1 t2 _].
  cbv zeta. agree_steps.
Qed.

Lemma collect_news_agrees params :
  agree eq (_collect_news E params) (_collect_news E params).
Proof.
  unfold _collect_news. apply agree_reraise.
  apply agree_bind_eq; [apply fetch_articles_agrees | intros articles].
  apply agree_for_in. apply collect_article_agrees.
Qed.

Lemma collect_social_media_agrees params :
  agree eq (_collect_social_media E params) (_collect_social_media E params).
Proof. unfold _collect_social_media, _collect_twitter. agree_steps. Qed.

Lemma same_but_timestamp_insert (t1 t2 : pyval) (d : pydict) :
  same_but_timestamp (<["timestamp" := t1]> d) (<["timestamp" := t2]> d).
Proof. unfold same_but_timestamp. by rewrite !delete_insert_eq. Qed.

Lemma same_but_timestamp_lookup (d1 d2 : pydict) k :
  same_but_timestamp d1 d2 -> k <> "timestamp" -> d1 !! k = d2 !! k.
Proof.
  intros Hsame Hk.
  rewrite <- (lookup_delete_ne d1 "timestamp" k), <- (lookup_delete_ne d2 "timestamp" k) by done.
  by rewrite Hsame.
Qed.

(** The collected data of two runs differ in their timestamp only. *)
Lemma collect_agrees params :
  agree same_but_timestamp (collect E params) (collect E params).
Proof.
  unfold collect. apply agree_reraise.
  apply agree_bind_eq; [apply collect_news_agrees | intros news_data].
  apply agree_bind_eq; [apply collect_social_media_agrees | intros social_data].
  apply (agree_bind (fun _ _ => True)); [apply agree_now | intros t1 t2 _].
  apply agree_ret, same_but_timestamp_insert.
Qed.

Lemma run_analysis_agrees query :
  agree same_but_timestamp (run_analysis E query) (run_analysis E query).
Proof.
  unfold run_analysis. apply agree_reraise.
  apply agree_bind_eq; [unfold parse_election_query; agree_steps | intros election_params].
  apply agree_bind_eq; [agree_steps | intros _].
  apply (agree_bind same_but_timestamp); [apply collect_agrees | intros raw1 raw2 Hraw].
  apply agree_bind_eq; [agree_steps | intros _].
  unfold dict_getitem at 1 5.
  rewrite (same_but_timestamp_lookup raw1 raw2 "news" Hraw) by done.
  apply agree_bind_eq; [agree_steps | intros news_data].
  apply agree_bind_eq; [unfold analyze_source; agree_steps | intros news_analysis].
  apply agree_bind_eq; [agree_steps | intros _].
  unfold dict_getitem at 1 4.
  rewrite (same_but_timestamp_lookup raw1 raw2 "social" Hraw) by done.
  apply agree_bind_eq; [agree_steps | intros social].
  apply agree_bind_eq; [agree_steps | intros social_data].
  apply agree_bind_eq; [unfold analyze_source; agree_steps | intros social_analysis].
  apply agree_bind_eq; [agree_steps | intros _].
  apply agree_bind_eq; [agree_steps | intros news_text].
  apply agree_bind_eq; [agree_steps | intros social_text].
  apply agree_bind_eq; [agree_steps | intros predictions].
  apply (agree_bind (fun _ _ => True)); [apply agree_now | intros t1 t2 _].
  apply agree_ret, same_but_timestamp_insert.
Qed.

(** C9. When the answer of every collaborator is a function of the request
    alone, two runs of the pipeline on the same query, from any two
    states of the world, of the clock and of the log, end alike: both
    raise the same exception, or both return a Run Result, and the two
    results are equal in every field except [timestamp]. *)
Theorem run_analysis_deterministic_but_timestamp (query : string) (s1 s2 : state W) :
  res_rel same_but_timestamp
    (fst (run_analysis E query s1)) (fst (run_analysis E query s2)).
Proof. apply run_analysis_agrees. Qed.
End Determinism.

(** ** The predictor *)

Section PredictionModelFacts.
Import PredictionModel.
Variables neutral_probability neutral_confidence : Q.
Hypothesis probability_bounded : (0 <= neutral_probability <= 1)%Q.
Hypothesis confidence_bounded : (0 <= neutral_confidence <= 1)%Q.

Lemma predictions_dom candidates :
  dom (predictions (predict neutral_probability neutral_confidence candidates))
  = list_to_set candidates.
Proof.
  unfold predict. destruct candidates as [|c cs]; [set_solver|].
  cbn [predictions]. rewrite dom_list_to_map_L.
  by rewrite <- list_fmap_compose, list_fmap_id.
Qed.

(** C6. For every sequence of candidate names the predictor returns one
    prediction per distinct name supplied and no other, every probability
    lies in [0,1] and so does the confidence; for zero candidates the
    predictions are empty and the confidence is 0. *)
Theorem predict_contract (candidates : list string) :
  dom (predictions (predict neutral_probability neutral_confidence candidates))
    = list_to_set candidates
  /\ size (predictions (predict neutral_probability neutral_confidence candidates))
     = length (remove_dups candidates)
  /\ (forall c p,
        predictions (predict neutral_probability neutral_confidence candidates) !! c = Some p ->
        (0 <= p <= 1)%Q)
  /\ (0 <= confidence (predict neutral_probability neutral_confidence candidates) <= 1)%Q
  /\ predict neutral_probability neutral_confidence [] = PredictionResult 0 ∅.
Proof.
  split; [apply predictions_dom|]. split; [|split; [|split; [|done]]].
  - rewrite <- size_dom, predictions_dom.
    rewrite <- (size_list_to_set (C := gset string) (remove_dups candidates))
      by apply NoDup_remove_dups.
    f_equal. apply set_eq. intros c. rewrite !elem_of_list_to_set.
    by rewrite elem_of_remove_dups.
  - intros c p. unfold predict. destruct candidates as [|c0 cs]; [done|].
    cbn [predictions]. intros Hlookup.
    apply elem_of_list_to_map_2, list_elem_of_fmap in Hlookup as (c' & [= -> ->] & _).
    exact probability_bounded.
  - unfold predict. destruct candidates; [done | exact confidence_bounded].
Qed.
End PredictionModelFacts.

(** ** The properties at the stub collaborators *)

Section Scenarios.
Import Stub.

(** Five articles, the third of which makes the model fail: the aggregate
    counts five and exactly one analysis carries an error. *)
Example analyze_five_items_one_failure :
  match fst (NewsAnalyzer.analyze scenario five_items start) with
  | Ok agg =>
      agg !! "article_count" = Some (PyInt 5)
      /\ match agg !! "individual_analyses" with
         | Some (PyList analyses) =>
             length analyses = 5%nat
             /\ length (List.filter
                          (fun v => match v with
                                    | PyDict a => has_key a "error"
                                    | _ => false
                                    end) analyses) = 1%nat
             /\ analyses !! 2%nat
                = Some (PyDict (<["error" := PyStr "simulated service failure"]>
                               (<["url" := PyStr "item3"]> ∅)))
         | _ => False
         end
  | Err _ => False
  end.
Proof. vm_compute. repeat split; reflexivity. Qed.


(** The third of five articles fails with an exception without a message:
    the aggregate counts five, one record carries an [error] field, and
    that field is the empty string. *)
Example analyze_error_field_may_be_empty :
  match fst (NewsAnalyzer.analyze silent_failure five_items start) with
  | Ok agg =>
      agg !! "article_count" = Some (PyInt 5)
      /\ match agg !! "individual_analyses" with
         | Some (PyList analyses) =>
             length (List.filter
                       (fun v => match v with
                                 | PyDict a => has_key a "error"
                                 | _ => false
                                 end) analyses) = 1%nat
             /\ analyses !! 2%nat
                = Some (PyDict (<["error" := PyStr EmptyString]>
                               (<["url" := PyStr "item3"]> ∅)))
         | _ => False
         end
  | Err _ => False
  end.
Proof. vm_compute. repeat split; reflexivity. Qed.

Lemma meta_analysis_excludes_error_records_witness :
  Forall item_analysis mixed
  /\ sent (snd (NewsAnalyzer._aggregate_analysis scenario mixed start))
     = [LlmInvoke
          [ SystemMessage "You are an expert political analyst. Provide a meta-analysis of these news analyses.";
            HumanMessage ("first" ++ nl ++ nl ++ "third") ]].
Proof.
  assert (Forall item_analysis mixed) as Hwf.
  { repeat constructor; vm_compute; try discriminate; intros v [= <-]; eauto. }
  split; [exact Hwf|].
  exact (proj1 (meta_analysis_excludes_error_records scenario mixed start Hwf)).
Defined.

Lemma overall_sentiment_is_constant_witness :
  exists result s',
    SocialMediaAnalyzer.analyze scenario social_data start = (Ok result, s')
    /\ result !! "overall_sentiment" = Some (PyFloat 0).
Proof.
  assert (is_Ok (fst (SocialMediaAnalyzer.analyze scenario social_data start)) = true)
    as Hreturns by evaluated.
  destruct (SocialMediaAnalyzer.analyze scenario social_data start)
    as [[result|e] s'] eqn:Hrun; [|discriminate Hreturns].
  exists result, s'. split; [reflexivity|].
  exact (proj1 (overall_sentiment_is_constant scenario social_data result start s' Hrun)).
Defined.

(** An article without a title, or one on which the parser raises an
    exception of its own, fails the whole batch, although the article
    after it can be processed. *)
Lemma collect_news_fails_on_other_exceptions :
  fst (DataCollector._collect_news one_untitled params start) = Err (Exc KeyError "title")
  /\ fst (DataCollector._collect_news one_odd params start)
     = Err (Exc ValueError "unexpected markup")
  /\ is_Ok (fst (DataCollector.process_article one_untitled (news_item "n2") start)) = true.
Proof. repeat split; vm_compute; reflexivity. Qed.

Lemma collect_news_skips_article_exceptions_witness :
  exists out s',
    DataCollector._collect_news one_unreachable params start = (Ok out, s')
    /\ length out = 2%nat
    /\ length (List.filter is_warning (logs s')) = 1%nat.
Proof.
  pose (articles := [news_item "n1"; news_item "bad2"; news_item "n3"]).
  pose (s0 := snd (DataCollector.fetch_articles one_unreachable params start)).
  destruct (collect_news_skips_article_exceptions one_unreachable params start s0 articles)
    as (s' & Hrun & _ & Hlog).
  - evaluated.
  - apply only_article_exceptions. evaluated.
  - eexists _, s'. split; [exact Hrun|]. split; [evaluated|].
    rewrite Hlog. evaluated.
Defined.

Lemma news_request_carries_election_params_witness :
  exists terms query later,
    DataCollector.news_search_terms scenario params = Ok terms
    /\ py_join " AND " terms = Ok query
    /\ query = "presidential AND USA AND " ++ DataCollector.dquote ++ "A" ++ DataCollector.dquote
                 ++ " AND " ++ DataCollector.dquote ++ "B" ++ DataCollector.dquote
    /\ sent (snd (DataCollector._collect_news scenario params start))
       = HttpGet DataCollector.base_url params :: later
    /\ params !! "q" = None
    /\ params !! "from" = None.
Proof.
  edestruct (news_request_carries_election_params scenario params start)
    as (later & Hsent & _).
  - vm_compute; reflexivity.
  - vm_compute; reflexivity.
  - eexists _, _, later. split; [reflexivity|]. split; [reflexivity|]. split; [reflexivity|].
    split; [exact Hsent|]. split; reflexivity.
Defined.

(** Both sources answer with nothing and the run returns a result. *)
Lemma run_analysis_proceeds_without_items :
  match fst (DataCollector.collect nothing_found params start) with
  | Ok raw_data =>
      raw_data !! "news" = Some (PyList [])
      /\ raw_data !! "social"
         = Some (PyDict (<["twitter" := PyList []]> (<["parameters" := PyDict params]> ∅)))
  | Err _ => False
  end
  /\ match fst (ElectionResearchSystem.run_analysis nothing_found "who wins?" start) with
     | Ok result =>
         result !! "news_analysis"
         = Some (PyDict (<["articles" := PyList []]>
                        (<["analysis" := PyStr "analysis of news article"]> ∅)))
         /\ result !! "social_analysis"
            = Some (PyDict (<["tweets" := PyList []]>
                           (<["analysis" := PyStr "analysis of social media"]> ∅)))
     | Err _ => False
     end.
Proof. vm_compute. repeat split; reflexivity. Qed.

Lemma run_fatal_only_on_exceptions_witness :
  exists result s',
    ElectionResearchSystem.run_analysis nothing_found "who wins?" start = (Ok result, s')
    /\ result !! "predictions" = Some prediction.
Proof.
  pose (s1 := snd (ElectionResearchSystem.parse_election_query nothing_found "who wins?" start)).
  pose (collected := DataCollector.collect nothing_found params (collecting s1)).
  pose (news := handler_analyze nothing_found "" "news article" (world (snd collected))).
  pose (social := handler_analyze nothing_found "" "social media" (snd news)).
  destruct (proj2 (proj2 (run_fatal_only_on_exceptions nothing_found "who wins?" start))
              params s1 (value_or ∅ (fst collected)) (snd collected)
              (<["twitter" := PyList []]> (<["parameters" := PyDict params]> ∅))
              (PyStr "analysis of news article") (snd news)
              (PyStr "analysis of social media") (snd social)
              prediction
              (snd (handler_predict nothing_found
                      [PyStr "analysis of news article"; PyStr "analysis of social media"]
                      (snd social))))
    as (result & s' & Hrun & _ & _ & Hpred).
  1-8: evaluated.
  exists result, s'. split; [exact Hrun | exact Hpred].
Defined.

Lemma run_analysis_deterministic_but_timestamp_witness :
  deterministic scenario
  /\ is_Ok (fst (ElectionResearchSystem.run_analysis scenario "who wins?" start)) = true
  /\ res_rel same_but_timestamp
       (fst (ElectionResearchSystem.run_analysis scenario "who wins?" start))
       (fst (ElectionResearchSystem.run_analysis scenario "who wins?" (State 1000 [] []))).
Proof.
  assert (deterministic scenario) as Hdet by (constructor; reflexivity).
  split; [exact Hdet|]. split; [vm_compute; reflexivity|].
  exact (run_analysis_deterministic_but_timestamp scenario Hdet "who wins?" _ _).
Defined.

Lemma predict_contract_witness :
  (0 <= 1 # 2 <= 1)%Q
  /\ size (PredictionModel.predictions
             (PredictionModel.predict (1 # 2) (1 # 2) ["A"; "B"; "A"])) = 2%nat
  /\ PredictionModel.predictions (PredictionModel.predict (1 # 2) (1 # 2) ["A"; "B"; "A"]) !! "B"
     = Some (1 # 2).
Proof.
  assert (0 <= 1 # 2 <= 1)%Q as Hbound by (split; discriminate).
  split; [exact Hbound|]. split; [|reflexivity].
  exact (proj1 (proj2 (predict_contract (1 # 2) (1 # 2) Hbound Hbound ["A"; "B"; "A"]))).
Defined.
End Scenarios.


(** * Further properties of the analyzers and the collector *)

Section TwitterAnalysisFacts.
Context {W : Type} (E : env W).
Import SocialMediaAnalyzer.

(** The texts and dates that the analyzer reads from collected tweets. *)
Lemma collected_tweet_texts (statuses : list status) :
  res_map (fun tweet => py_getitem tweet "text") (PyDict <$> (DataCollector.tweet_dict <$> statuses))
  = Ok (PyStr <$> (st_full_text <$> statuses)).
Proof.
  induction statuses as [|st l IH]; [done|].
  cbn [fmap list_fmap res_map]. fold (fmap DataCollector.tweet_dict l).
  fold (fmap PyDict (DataCollector.tweet_dict <$> l)). rewrite IH. reflexivity.
Qed.

Lemma earliest_loop (best : Z) (statuses : list status) :
  best_loop (py_lt E) created_at (PyDate best) (PyDict <$> (DataCollector.tweet_dict <$> statuses))
  = Ok (PyDate (fold_left Z.min (st_created_at <$> statuses) best)).
Proof.
  revert best. induction statuses as [|st l IH]; intros best; [done|].
  cbn [fmap list_fmap best_loop fold_left].
  fold (fmap DataCollector.tweet_dict l). fold (fmap PyDict (DataCollector.tweet_dict <$> l)).
  fold (fmap st_created_at l).
  change (created_at (PyDict (DataCollector.tweet_dict st))) with (Ok (PyDate (st_created_at st))).
  cbn [res_bind py_lt].
  replace (if st_created_at st <? best then PyDate (st_created_at st) else PyDate best)
    with (PyDate (Z.min best (st_created_at st))); [apply IH|].
  destruct (Z.ltb_spec (st_created_at st) best); f_equal; lia.
Qed.

Lemma latest_loop (best : Z) (statuses : list status) :
  best_loop (py_gt E) created_at (PyDate best) (PyDict <$> (DataCollector.tweet_dict <$> statuses))
  = Ok (PyDate (fold_left Z.max (st_created_at <$> statuses) best)).
Proof.
  revert best. induction statuses as [|st l IH]; intros best; [done|].
  cbn [fmap list_fmap best_loop fold_left].
  fold (fmap DataCollector.tweet_dict l). fold (fmap PyDict (DataCollector.tweet_dict <$> l)).
  fold (fmap st_created_at l).
  change (created_at (PyDict (DataCollector.tweet_dict st))) with (Ok (PyDate (st_created_at st))).
  unfold py_gt at 1. cbn [res_bind py_lt].
  replace (if best <? st_created_at st then PyDate (st_created_at st) else PyDate best)
    with (PyDate (Z.max best (st_created_at st))); [apply IH|].
  destruct (Z.ltb_spec best (st_created_at st)); f_equal; lia.
Qed.

Lemma fold_min_spec (dates : list Z) (best : Z) :
  fold_left Z.min dates best ∈ best :: dates
  /\ Forall (fun t => fold_left Z.min dates best <= t) (best :: dates).
Proof.
  revert best. induction dates as [|t l IH]; intros best; simpl.
  - split; [set_solver | by repeat constructor].
  - destruct (IH (Z.min best t)) as [Hin Hle]. clear IH. split.
    + apply elem_of_cons in Hin as [Hin|Hin]; [|set_solver].
      rewrite Hin. destruct (Z.min_spec best t) as [[_ ->]|[_ ->]]; set_solver.
    + apply Forall_cons in Hle as [Hhead Htail].
      repeat constructor; [lia | lia | done].
Qed.

Lemma fold_max_spec (dates : list Z) (best : Z) :
  fold_left Z.max dates best ∈ best :: dates
  /\ Forall (fun t => t <= fold_left Z.max dates best) (best :: dates).
Proof.
  revert best. induction dates as [|t l IH]; intros best; simpl.
  - split; [set_solver | by repeat constructor].
  - destruct (IH (Z.max best t)) as [Hin Hle]. clear IH. split.
    + apply elem_of_cons in Hin as [Hin|Hin]; [|set_solver].
      rewrite Hin. destruct (Z.max_spec best t) as [[_ ->]|[_ ->]]; set_solver.
    + apply Forall_cons in Hle as [Hhead Htail].
      repeat constructor; [lia | lia | done].
Qed.

(** X1. For a non-empty list of tweets as the collector builds them, and a
    model that answers the request made of the system prompt and the
    tweet texts joined by blank lines, [_analyze_twitter] returns the
    model's answer, the number of tweets, and as time period the earliest
    and the latest [created_at] among them. *)
Theorem analyze_twitter_time_period
    (statuses : list status) (s : state W) (analysis : string) (w : W) :
  statuses <> [] ->
  llm E
      [ SystemMessage "You are an expert in social media analysis and political sentiment. Analyze these tweets for election-related patterns and sentiment.";
        HumanMessage ("Tweets:" ++ nl
                        ++ String.concat (nl ++ nl) (st_full_text <$> statuses)) ]
      (world s)
    = (Ok analysis, w) ->
  exists lo hi s',
    _analyze_twitter E (PyList (PyDict <$> (DataCollector.tweet_dict <$> statuses))) s
    = (Ok (<["sentiment_analysis" := PyStr analysis]>
          (<["tweet_count" := PyInt (Z.of_nat (length statuses))]>
          (<["time_period" := PyDict (<["start" := PyDate lo]> (<["end" := PyDate hi]> ∅))]> ∅))),
       s')
    /\ lo ∈ st_created_at <$> statuses
    /\ hi ∈ st_created_at <$> statuses
    /\ Forall (fun t => lo <= t <= hi) (st_created_at <$> statuses).
Proof.
  intros Hne Hllm. destruct statuses as [|st rest]; [done|].
  destruct (fold_min_spec (st_created_at <$> rest) (st_created_at st)) as [Hlo_in Hlo].
  destruct (fold_max_spec (st_created_at <$> rest) (st_created_at st)) as [Hhi_in Hhi].
  exists (fold_left Z.min (st_created_at <$> rest) (st_created_at st)),
         (fold_left Z.max (st_created_at <$> rest) (st_created_at st)).
  eexists. split; [|split; [done|split; [done|]]].
  - unfold _analyze_twitter. rewrite try_except_run, bind_run. unfold lift at 1, py_iter at 1.
    rewrite bind_run. unfold lift at 1. rewrite collected_tweet_texts.
    rewrite bind_run. unfold lift at 1. rewrite py_join_strings.
    rewrite bind_run. unfold request at 1, twitter_messages. rewrite Hllm.
    rewrite bind_run. unfold lift at 1, py_len at 1.
    rewrite bind_run. unfold lift at 1, py_iter at 1.
    rewrite bind_run. unfold lift at 1, py_min, best_of.
    cbn [fmap list_fmap]. fold (fmap DataCollector.tweet_dict rest).
    fold (fmap PyDict (DataCollector.tweet_dict <$> rest)).
    change (created_at (PyDict (DataCollector.tweet_dict st))) with (Ok (PyDate (st_created_at st))).
    cbn [res_bind]. rewrite earliest_loop.
    rewrite bind_run. unfold lift at 1, py_iter at 1.
    rewrite bind_run. unfold lift at 1, py_max, best_of.
    change (created_at (PyDict (DataCollector.tweet_dict st))) with (Ok (PyDate (st_created_at st))).
    cbn [res_bind]. rewrite latest_loop.
    cbn [length]. rewrite !length_fmap. reflexivity.
  - apply Forall_forall. intros t Ht.
    rewrite Forall_forall in Hlo. rewrite Forall_forall in Hhi.
    split; [apply Hlo, Ht | apply Hhi, Ht].
Qed.
End TwitterAnalysisFacts.


Section CollectorEdgeFacts.
Context {W : Type} (E : env W).
Import DataCollector.

Lemma tweet_dict_fields (tweet : status) :
  tweet_dict tweet !! "text" = Some (PyStr (st_full_text tweet))
  /\ tweet_dict tweet !! "created_at" = Some (PyDate (st_created_at tweet)).
Proof. unfold tweet_dict. by simplify_map_eq. Qed.

(** X2. Whenever [_collect_twitter] returns, it has sent exactly one
    request, a search limited to 1000 statuses whose query ends in
    [-filter:retweets]; it returns at most 1000 tweets, each with a string
    [text] and a datetime [created_at], and it has logged nothing. *)
Theorem collect_twitter_one_bounded_search
    (params : pydict) (s s' : state W) (tweets : list pydict) :
  _collect_twitter E params s = (Ok tweets, s') ->
  (length tweets <= 1000)%nat
  /\ Forall (fun tweet => exists text date,
                tweet !! "text" = Some (PyStr text)
                /\ tweet !! "created_at" = Some (PyDate date)) tweets
  /\ (exists joined,
        sent s' = (sent s ++ [TwitterSearch (joined ++ " -filter:retweets")
                                            "extended" "en" 1000])%list)
  /\ logs s' = logs s.
Proof.
  unfold _collect_twitter. rewrite try_except_run, bind_run. unfold lift at 1.
  destruct (twitter_search_terms E params) as [terms|e]; [|discriminate].
  rewrite bind_run. unfold lift at 1.
  destruct (py_join " " terms) as [joined|e]; [|discriminate].
  rewrite bind_run. unfold request at 1.
  destruct (search_tweets E _ _ _ (world s)) as [[statuses|e] w]; [|discriminate].
  intros [= <- <-]. split; [|split; [|split; [|done]]].
  - rewrite length_fmap, length_take. unfold tweet_limit. lia.
  - apply Forall_fmap, Forall_forall. intros tweet _. simpl.
    destruct (tweet_dict_fields tweet) as [Htext Hdate]. eauto.
  - by exists joined.
Qed.

(** X3. [keywords: None] makes [_collect_news] raise a [TypeError] before
    any request is sent, because the keywords are iterated unguarded, while
    [hashtags: None] is accepted by the Twitter collector, which tests the
    hashtags before it iterates them. *)
Theorem keywords_none_fails_hashtags_none_passes
    (params : pydict) (s : state W) (terms : list pyval) :
  location_and_candidates E params = Ok terms ->
  params !! "keywords" = Some PyNone ->
  params !! "hashtags" = Some PyNone ->
  fst (_collect_news E params s) = Err (Exc TypeError "'NoneType' object is not iterable")
  /\ sent (snd (_collect_news E params s)) = sent s
  /\ twitter_search_terms E params = Ok terms.
Proof.
  intros Hterms Hkeywords Hhashtags.
  assert (news_search_terms E params = Err (Exc TypeError "'NoneType' object is not iterable"))
    as Hnews.
  { unfold news_search_terms, dict_get. by rewrite Hterms, Hkeywords. }
  split; [|split].
  - unfold _collect_news, fetch_articles.
    rewrite log_and_raise_run, bind_run, bind_run. unfold lift at 1. by rewrite Hnews.
  - unfold _collect_news, fetch_articles.
    rewrite try_except_run, bind_run, bind_run. unfold lift at 1. by rewrite Hnews.
  - unfold twitter_search_terms, dict_get. by rewrite Hterms, Hhashtags.
Qed.

Lemma str_chars_quoted (name : string) :
  (fun c => PyStr (dquote ++ py_str E c ++ dquote)) <$> str_chars name
  = (fun c => PyStr (dquote ++ String c "" ++ dquote)) <$> String.list_ascii_of_string name.
Proof.
  induction name as [|c name IH]; [done|].
  cbn [str_chars String.list_ascii_of_string]. rewrite !fmap_cons. by f_equal.
Qed.

Lemma str_truthy (name : string) : name <> "" -> py_truthy (PyStr name) = true.
Proof. intros Hname. simpl. by destruct name. Qed.

(** X4. When [candidates] is one name given as a string instead of a list
    of names, the name is iterated character by character: with no other
    parameter set, the Twitter search asks for each character of the name
    in quotes.  The name is taken to be ASCII, where the characters of the
    Python string are the bytes of the embedding. *)
Theorem candidates_string_is_quoted_per_character
    (params : pydict) (name : string) (s : state W) :
  params !! "candidates" = Some (PyStr name) ->
  name <> "" ->
  Forall (fun c => (Ascii.nat_of_ascii c < 128)%nat) (String.list_ascii_of_string name) ->
  params !! "election_type" = None ->
  params !! "country" = None ->
  params !! "region" = None ->
  params !! "hashtags" = None ->
  sent (snd (_collect_twitter E params s))
  = (sent s ++ [TwitterSearch
                  (String.concat " " ((fun c => (dquote ++ String c "" ++ dquote)%string)
                                        <$> String.list_ascii_of_string name)
                     ++ " -filter:retweets")
                  "extended" "en" 1000])%list.
Proof.
  intros Hcandidates Hname _ Htype Hcountry Hregion Hhashtags.
  assert (twitter_search_terms E params
          = Ok (PyStr <$> ((fun c => dquote ++ String c "" ++ dquote)
                             <$> String.list_ascii_of_string name))) as Hterms.
  { unfold twitter_search_terms, location_and_candidates, append_if_set, dict_get_none,
      extend_with_candidates, dict_get.
    rewrite Htype, Hcountry, Hregion, Hcandidates, Hhashtags. cbn [default from_option id].
    rewrite (str_truthy name Hname).
    cbn [py_truthy length Nat.eqb negb res_bind py_iter app]. rewrite str_chars_quoted.
    by rewrite <- list_fmap_compose. }
  unfold _collect_twitter. rewrite try_except_run, bind_run. unfold lift at 1. rewrite Hterms.
  rewrite bind_run. unfold lift at 1. rewrite py_join_strings.
  rewrite bind_run. unfold request at 1.
  by destruct (search_tweets E _ _ _ (world s)) as [[statuses|e] w].
Qed.

(** The terms of a string-valued parameter. *)
Lemma append_if_set_string (params : pydict) (key : string) (value : option string)
    (terms : list pyval) :
  dict_get_none params key = from_option PyStr PyNone value ->
  append_if_set params key terms
  = Ok (terms ++ match value with
                 | Some v => if String.eqb v "" then [] else [PyStr v]
                 | None => []
                 end)%list.
Proof.
  unfold append_if_set. intros Hget. rewrite Hget.
  destruct value as [v|]; simpl; [|by rewrite app_nil_r].
  destruct (String.eqb v ""); simpl; [by rewrite app_nil_r|].
  unfold dict_get_none, dict_get in Hget. unfold dict_getitem.
  destruct (params !! key) as [x|]; simpl in *; [by subst x | discriminate].
Qed.
End CollectorEdgeFacts.


Section CollectorQueryFacts.
Context {W : Type} (E : env W).
Import DataCollector.

Lemma quoted_candidates (names : list string) :
  (fun c => PyStr (dquote ++ py_str E c ++ dquote)) <$> (PyStr <$> names)
  = PyStr <$> (quoted <$> names).
Proof. by rewrite <- !list_fmap_compose. Qed.

Lemma list_truthy {A} (f : A -> pyval) (l : list A) :
  py_truthy (PyList (f <$> l)) = match l with [] => false | _ => true end.
Proof. by destruct l. Qed.

(** The terms both collectors start from, for string-valued parameters. *)
Lemma location_and_candidates_typed
    (params : pydict) (election_type country region : option string)
    (candidates : list string) :
  dict_get_none params "election_type" = from_option PyStr PyNone election_type ->
  dict_get_none params "country" = from_option PyStr PyNone country ->
  dict_get_none params "region" = from_option PyStr PyNone region ->
  dict_get params "candidates" (PyList []) = PyList (PyStr <$> candidates) ->
  location_and_candidates E params
  = Ok (PyStr <$> (given election_type ++ given country ++ given region
                     ++ (quoted <$> candidates)))%list.
Proof.
  intros Htype Hcountry Hregion Hcandidates. unfold location_and_candidates.
  rewrite (append_if_set_string params _ election_type [] Htype). cbn [res_bind].
  rewrite (append_if_set_string params _ country _ Hcountry). cbn [res_bind].
  rewrite (append_if_set_string params _ region _ Hregion). cbn [res_bind].
  unfold extend_with_candidates. rewrite Hcandidates, list_truthy.
  rewrite !fmap_app. unfold given.
  destruct candidates as [|c cs].
  - rewrite !app_nil_r. f_equal. rewrite app_nil_l, <- !app_assoc. f_equal; [|f_equal].
    + by destruct election_type as [v|]; [destruct (String.eqb v "")|].
    + by destruct country as [v|]; [destruct (String.eqb v "")|].
    + by destruct region as [v|]; [destruct (String.eqb v "")|].
  - cbn [py_iter res_bind]. rewrite quoted_candidates. f_equal.
    rewrite app_nil_l, <- !app_assoc. f_equal; [|f_equal; [|f_equal]].
    + by destruct election_type as [v|]; [destruct (String.eqb v "")|].
    + by destruct country as [v|]; [destruct (String.eqb v "")|].
    + by destruct region as [v|]; [destruct (String.eqb v "")|].
Qed.

(** X5. For string-valued parameters the Twitter collector sends one
    search whose query is, separated by spaces: the election type, the
    country and the region that are set and not empty, every candidate
    name in double quotes, every hashtag, and [-filter:retweets]. *)
Theorem twitter_query_of_typed_parameters
    (params : pydict) (election_type country region : option string)
    (candidates hashtags : list string) (s : state W) :
  dict_get_none params "election_type" = from_option PyStr PyNone election_type ->
  dict_get_none params "country" = from_option PyStr PyNone country ->
  dict_get_none params "region" = from_option PyStr PyNone region ->
  dict_get params "candidates" (PyList []) = PyList (PyStr <$> candidates) ->
  dict_get params "hashtags" (PyList []) = PyList (PyStr <$> hashtags) ->
  sent (snd (_collect_twitter E params s))
  = (sent s ++ [TwitterSearch
                  (String.concat " " (given election_type ++ given country ++ given region
                                        ++ (quoted <$> candidates) ++ hashtags)
                     ++ " -filter:retweets")
                  "extended" "en" 1000])%list.
Proof.
  intros Htype Hcountry Hregion Hcandidates Hhashtags.
  assert (twitter_search_terms E params
          = Ok (PyStr <$> (given election_type ++ given country ++ given region
                             ++ (quoted <$> candidates) ++ hashtags))%list) as Hterms.
  { unfold twitter_search_terms.
    rewrite (location_and_candidates_typed params _ _ _ _ Htype Hcountry Hregion Hcandidates).
    cbn [res_bind]. rewrite Hhashtags, list_truthy.
    destruct hashtags as [|h hs].
    - by rewrite !app_nil_r.
    - cbn [py_iter res_bind]. rewrite <- fmap_app. by rewrite <- !app_assoc. }
  unfold _collect_twitter. rewrite try_except_run, bind_run. unfold lift at 1. rewrite Hterms.
  rewrite bind_run. unfold lift at 1. rewrite py_join_strings.
  rewrite bind_run. unfold request at 1.
  by destruct (search_tweets E _ _ _ (world s)) as [[statuses|e] w].
Qed.

(** X6. An answer of the news API without [articles] gives an empty
    collection: [_collect_news] returns the empty list, and it has sent
    the one request to the news API, downloaded no article and logged
    nothing. *)
Theorem collect_news_without_articles
    (params : pydict) (s : state W) (terms : list pyval) (query : string)
    (answer : pydict) (w : W) :
  news_search_terms E params = Ok terms ->
  py_join " AND " terms = Ok query ->
  requests_get E "https://newsapi.org/v2/everything" params (snd (clock E (world s)))
  = (Ok (PyDict answer), w) ->
  answer !! "articles" = None ->
  _collect_news E params s
  = (Ok [], State w (logs s) (sent s ++ [HttpGet "https://newsapi.org/v2/everything" params])).
Proof.
  intros Hterms Hquery Hget Harticles.
  unfold _collect_news, fetch_articles, base_url.
  rewrite try_except_run, bind_run, (bind_lift_ok _ _ _ _ Hterms), (bind_lift_ok _ _ _ _ Hquery).
  rewrite bind_run. unfold now at 1. destruct (clock E (world s)) as [t w0]. cbn [fst snd] in *.
  rewrite bind_run. unfold request at 1. cbn [world logs sent]. rewrite Hget.
  rewrite bind_run. unfold lift at 1, py_get, dict_get. rewrite Harticles. reflexivity.
Qed.

(** X7. When the request to the news API raises, the whole collection
    raises that exception: it is logged by [_collect_news] and again by
    [collect], the news request is the only request sent, and Twitter is
    never asked. *)
Theorem news_request_failure_fails_collection
    (params : pydict) (s : state W) (terms : list pyval) (query : string)
    (e : exc) (w : W) :
  news_search_terms E params = Ok terms ->
  py_join " AND " terms = Ok query ->
  requests_get E "https://newsapi.org/v2/everything" params (snd (clock E (world s))) = (Err e, w) ->
  collect E params s
  = (Err e,
     State w
       (logs s ++ [(ERROR, ("Error collecting news data: " ++ str_exc e)%string);
                   (ERROR, ("Error collecting data: " ++ str_exc e)%string)])
       (sent s ++ [HttpGet "https://newsapi.org/v2/everything" params])).
Proof.
  intros Hterms Hquery Hget.
  assert (_collect_news E params s
          = (Err e, State w (logs s ++ [(ERROR, ("Error collecting news data: "
                                                   ++ str_exc e)%string)])
                          (sent s ++ [HttpGet "https://newsapi.org/v2/everything" params]))) as Hnews.
  { unfold _collect_news, fetch_articles, base_url.
    rewrite try_except_run, bind_run, (bind_lift_ok _ _ _ _ Hterms),
      (bind_lift_ok _ _ _ _ Hquery).
    rewrite bind_run. unfold now at 1. destruct (clock E (world s)) as [t w0].
    cbn [fst snd] in *.
    rewrite bind_run. unfold request at 1. cbn [world logs sent]. rewrite Hget.
    reflexivity. }
  unfold collect. rewrite try_except_run, bind_run, Hnews.
  cbn [bind log raise logs sent world]. by rewrite <- app_assoc.
Qed.
End CollectorQueryFacts.

Section NewsAnalyzerEdgeFacts.
Context {W : Type} (E : env W).
Import NewsAnalyzer.

(** X8. An article without a [url] is answered without any request: the
    article library and the model are not called, the error of the record
    is the missing key and its identifier is ['unknown']. *)
Theorem analyze_article_without_url (article : pydict) (s : state W) :
  article !! "url" = None ->
  exists s',
    _analyze_single_article E article s
    = (Ok (<["error" := PyStr "'url'"]> (<["url" := PyStr "unknown"]> ∅)), s')
    /\ sent s' = sent s
    /\ world s' = world s.
Proof.
  intros Hurl. rewrite analyze_single_article_run.
  unfold analyze_article_body. rewrite bind_run. unfold lift at 1, dict_getitem.
  rewrite Hurl. unfold error_analysis, dict_get. rewrite Hurl.
  eexists. split; [reflexivity|done].
Qed.
End NewsAnalyzerEdgeFacts.


Section RequestDiscipline.
Context {W : Type} (E : env W).
Import DataCollector ElectionResearchSystem.

Lemma sends_now P : sends P (now E).
Proof. apply sends_silent. intros s. unfold now. by destruct (clock E (world s)). Qed.

Ltac sends_steps_with known :=
  repeat first
    [ known
    | apply sends_lift | apply sends_ret | apply sends_raise | apply sends_log
    | apply sends_now
    | apply sends_request; reflexivity
    | apply sends_bind; [|intros ?]
    | apply sends_try_except; [|intros ?] ].

Ltac sends_steps := sends_steps_with fail.

Lemma collect_sends_no_chat (params : pydict) :
  sends (fun c => is_llm_call c = false) (collect E params).
Proof.
  unfold collect, _collect_news, fetch_articles, _collect_social_media, _collect_twitter.
  sends_steps.
  apply sends_for_in. intros article acc.
  unfold collect_article, try_except_only, process_article. sends_steps.
  destruct (is_article_exception _); sends_steps.
Qed.

(** X9. The pipeline never invokes the chat model of the two analyzers:
    among the requests that a run of [run_analysis] makes there is no
    [ChatOpenAI] invocation, whatever the query and the collaborators.
    It reaches a model only through the three calls of the
    [LocalLLMHandler]. *)
Theorem run_analysis_never_calls_chat_model (query : string) (s : state W) :
  exists later,
    sent (snd (run_analysis E query s)) = (sent s ++ later)%list
    /\ Forall (fun c => is_llm_call c = false) later.
Proof.
  revert s. change (sends (fun c => is_llm_call c = false) (run_analysis E query)).
  unfold run_analysis, parse_election_query, analyze_source.
  sends_steps_with ltac:(apply collect_sends_no_chat).
Qed.
End RequestDiscipline.

Section LogDisciplineFacts.
Context {W : Type}.

Lemma discipline_quiet {A} (m : M W A) :
  keeps_logs m -> logs_errors_only_when_raising m.
Proof. intros Hm s. exists []. rewrite app_nil_r. split; [apply Hm | by constructor]. Qed.

Lemma discipline_log (lv : level) (msg : string) :
  lv <> ERROR -> logs_errors_only_when_raising (W := W) (log lv msg).
Proof.
  intros Hlv s. exists [(lv, msg)]. split; [done|]. intros _.
  repeat constructor. unfold is_error_entry. by destruct lv.
Qed.

Lemma discipline_bind {A B} (m : M W A) (k : A -> M W B) :
  logs_errors_only_when_raising m ->
  (forall a, logs_errors_only_when_raising (k a)) ->
  logs_errors_only_when_raising (bind m k).
Proof.
  intros Hm Hk s. rewrite bind_run. destruct (Hm s) as (more1 & Hlogs1 & Hok1).
  destruct (m s) as [[a|e] s1]; simpl in *.
  - destruct (Hk a s1) as (more2 & Hlogs2 & Hok2).
    exists (more1 ++ more2)%list. rewrite Hlogs2, Hlogs1, <- app_assoc. split; [done|].
    intros Hok. apply Forall_app. split; [by apply Hok1 | by apply Hok2].
  - exists more1. split; [done | discriminate].
Qed.

Lemma discipline_reraise {A} (m : M W A) (msg : exc -> string) :
  logs_errors_only_when_raising m ->
  logs_errors_only_when_raising (try_except m (fun e => log ERROR (msg e) ;;; raise e)).
Proof.
  intros Hm s. rewrite try_except_run. destruct (Hm s) as (more & Hlogs & Hok).
  destruct (m s) as [[a|e] s1]; simpl in *.
  - by exists more.
  - exists (more ++ [(ERROR, msg e)])%list. rewrite Hlogs, <- app_assoc. split; [done|].
    discriminate.
Qed.

(** What a handler that logs and raises again leaves in the log. *)
Lemma reraise_logs {A} (m : M W A) (msg : exc -> string) (s : state W) :
  logs_errors_only_when_raising m ->
  exists more,
    logs (snd (try_except m (fun e => log ERROR (msg e) ;;; raise e) s)) = (logs s ++ more)%list
    /\ match fst (try_except m (fun e => log ERROR (msg e) ;;; raise e) s) with
       | Ok _ => Forall (fun entry => is_error_entry entry = false) more
       | Err e => last more = Some (ERROR, msg e)
       end.
Proof.
  intros Hm. rewrite try_except_run. destruct (Hm s) as (more & Hlogs & Hok).
  destruct (m s) as [[a|e] s1]; simpl in *.
  - exists more. split; [done | by apply Hok].
  - exists (more ++ [(ERROR, msg e)])%list. rewrite Hlogs, <- app_assoc.
    split; [done | by rewrite last_snoc].
Qed.

(** A handler around a block that logs nothing. *)
Lemma discipline_try_quiet {A} (m : M W A) (h : exc -> M W A) :
  keeps_logs m ->
  (forall e, logs_errors_only_when_raising (h e)) ->
  logs_errors_only_when_raising (try_except m h).
Proof.
  intros Hm Hh s. rewrite try_except_run. specialize (Hm s).
  destruct (m s) as [[a|e] s1]; simpl in *.
  - exists []. rewrite app_nil_r. split; [done | by constructor].
  - destruct (Hh e s1) as (more & Hlogs & Hok). exists more. by rewrite Hlogs, Hm.
Qed.

Lemma discipline_for_in {A B} (l : list A) (body : A -> B -> M W B) acc :
  (forall x b, logs_errors_only_when_raising (body x b)) ->
  logs_errors_only_when_raising (for_in l body acc).
Proof.
  intros Hbody. revert acc. induction l as [|x l IH]; intros acc; simpl.
  - by apply discipline_quiet.
  - apply discipline_bind; [apply Hbody | apply IH].
Qed.

Lemma keeps_logs_now (E : env W) : keeps_logs (now E).
Proof. intros s. unfold now. by destruct (clock E (world s)). Qed.

Lemma keeps_logs_raise {A} (e : exc) : keeps_logs (W := W) (raise (A := A) e).
Proof. by intros s. Qed.
End LogDisciplineFacts.

Section PipelineLogFacts.
Context {W : Type} (E : env W).
Import DataCollector ElectionResearchSystem.

Ltac quiet_steps :=
  repeat first
    [ apply keeps_logs_lift | apply keeps_logs_ret | apply keeps_logs_request
    | apply keeps_logs_now | apply keeps_logs_raise
    | apply keeps_logs_bind; [|intros ?] ].

Ltac discipline_steps_with known :=
  repeat first
    [ known
    | apply discipline_reraise
    | apply discipline_log; discriminate
    | apply discipline_quiet; quiet_steps; fail
    | apply discipline_bind; [|intros ?] ].

Ltac discipline_steps := discipline_steps_with fail.

Lemma collect_article_discipline article acc :
  logs_errors_only_when_raising (collect_article E article acc).
Proof.
  unfold collect_article, try_except_only, process_article.
  apply discipline_try_quiet; [quiet_steps|].
  intros e. destruct (is_article_exception e); discipline_steps.
Qed.

Lemma collect_discipline params : logs_errors_only_when_raising (collect E params).
Proof.
  unfold collect, _collect_news, fetch_articles, _collect_social_media, _collect_twitter.
  discipline_steps.
  apply discipline_for_in, collect_article_discipline.
Qed.

(** X10. A run of [run_analysis] only adds to the log.  When it returns a
    result it has added no [ERROR] entry; when it raises, the last entry is
    the [ERROR] entry of the pipeline for the exception it raises. *)
Theorem run_analysis_logs_what_it_raises (query : string) (s : state W) :
  exists more,
    logs (snd (run_analysis E query s)) = (logs s ++ more)%list
    /\ match fst (run_analysis E query s) with
       | Ok _ => Forall (fun entry => is_error_entry entry = false) more
       | Err e => last more = Some (ERROR, "Error in analysis pipeline: " ++ str_exc e)
       end.
Proof.
  unfold run_analysis, parse_election_query, analyze_source.
  apply reraise_logs.
  discipline_steps_with ltac:(apply collect_discipline).
Qed.
End PipelineLogFacts.


Section CollectedDataFacts.
Context {W : Type} (E : env W).
Import DataCollector ElectionResearchSystem.

Lemma collect_twitter_ok params s tweets s' :
  _collect_twitter E params s = (Ok tweets, s') ->
  exists statuses, tweets = tweet_dict <$> statuses /\ (length statuses <= 1000)%nat.
Proof.
  unfold _collect_twitter. rewrite try_except_run, bind_run. unfold lift at 1.
  destruct (twitter_search_terms E params) as [terms|e]; [|discriminate].
  rewrite bind_run. unfold lift at 1.
  destruct (py_join " " terms) as [joined|e]; [|discriminate].
  rewrite bind_run. unfold request at 1.
  destruct (search_tweets E _ _ _ (world s)) as [[statuses|e] w]; [|discriminate].
  intros [= <- _]. exists (take tweet_limit statuses). split; [done|].
  rewrite length_take. unfold tweet_limit. lia.
Qed.

Lemma process_article_record article s processed s' :
  process_article E article s = (Ok processed, s') -> article_record processed.
Proof.
  unfold process_article. run_unfold.
  destruct (py_getitem article "url") as [url|e]; [|discriminate].
  destruct (newspaper E url false (world s)) as [[parsed|e] w]; [|discriminate].
  destruct (py_getitem article "title") as [title|e]; [|discriminate].
  destruct (py_getitem article "publishedAt") as [published_at|e]; [|discriminate].
  destruct (py_getitem article "source") as [source|e]; [|discriminate].
  destruct (py_getitem source "name") as [name|e]; [|discriminate].
  intros [= <- _]. split; [set_solver|].
  exists (art_text parsed). by simplify_map_eq.
Qed.

Lemma collect_loop_records articles acc s out s' :
  Forall article_record acc ->
  for_in articles (collect_article E) acc s = (Ok out, s') ->
  Forall article_record out.
Proof.
  revert acc s. induction articles as [|article rest IH]; intros acc s Hacc; simpl.
  - by intros [= <- _].
  - rewrite bind_run, collect_article_run.
    destruct (process_article E article s) as [[processed|e] s1] eqn:Hprocess.
    + intros Hrest. eapply IH; [|exact Hrest]. apply Forall_app. split; [done|].
      constructor; [|constructor]. by eapply process_article_record.
    + destruct (is_article_exception e); [|discriminate].
      destruct (py_getitem article "url"); [|discriminate]. by apply IH.
Qed.

Lemma collect_news_records params s out s' :
  _collect_news E params s = (Ok out, s') -> Forall article_record out.
Proof.
  unfold _collect_news. rewrite try_except_run, bind_run.
  destruct (fetch_articles E params s) as [[articles|e] s0]; [|discriminate].
  destruct (for_in articles (collect_article E) [] s0) as [[out'|e] s1] eqn:Hloop;
    [|discriminate].
  intros [= <- _]. by eapply collect_loop_records.
Qed.

(** What [collect] returns. *)
Lemma collect_ok params s raw_data s' :
  collect E params s = (Ok raw_data, s') ->
  exists articles statuses timestamp,
    raw_data
    = <["timestamp" := PyStr (isoformat E timestamp)]>
      (<["parameters" := PyDict params]>
      (<["news" := PyList (PyDict <$> articles)]>
      (<["social" := PyDict (<["twitter" := PyList (PyDict <$> (tweet_dict <$> statuses))]>
                            (<["parameters" := PyDict params]> ∅))]> ∅)))
    /\ Forall article_record articles
    /\ (length statuses <= 1000)%nat.
Proof.
  unfold collect. rewrite try_except_run, bind_run.
  destruct (_collect_news E params s) as [[articles|e] s1] eqn:Hnews; [|discriminate].
  rewrite bind_run. unfold _collect_social_media. rewrite try_except_run, bind_run.
  destruct (_collect_twitter E params s1) as [[tweets|e] s2] eqn:Htwitter; [|discriminate].
  apply collect_twitter_ok in Htwitter as (statuses & -> & Hbound).
  unfold ret at 1. rewrite bind_run. unfold now at 1.
  destruct (clock E (world s2)) as [t w]. intros [= <- _].
  exists articles, statuses, t. split; [done|]. split; [|done].
  by eapply collect_news_records.
Qed.

Lemma article_texts_join (articles : list pydict) :
  Forall article_record articles ->
  joined_texts E (PyList (PyDict <$> articles)) = Ok (String.concat nl (text_of <$> articles)).
Proof.
  intros Hrecords. unfold joined_texts. cbn [py_iter res_bind].
  assert (res_map (fun item => py_getitem item "text") (PyDict <$> articles)
          = Ok (PyStr <$> (text_of <$> articles))) as ->.
  { induction Hrecords as [|a l [_ [text Htext]] _ IH]; [done|].
    cbn [fmap list_fmap res_map py_getitem]. fold (fmap PyDict l). rewrite IH.
    unfold dict_getitem, text_of. by rewrite Htext. }
  cbn [res_bind]. apply py_join_strings.
Qed.

Lemma tweet_texts_join (statuses : list status) :
  joined_texts E (PyList (PyDict <$> (tweet_dict <$> statuses)))
  = Ok (String.concat nl (st_full_text <$> statuses)).
Proof.
  unfold joined_texts. cbn [py_iter res_bind]. rewrite collected_tweet_texts.
  cbn [res_bind]. apply py_join_strings.
Qed.

(** X11. Whatever [collect] returns can be joined by the pipeline: the news
    are a list of article records with five fields and a string [text],
    the tweets a list of at most 1000 tweet records, and the two joins of
    [run_analysis] over their texts do not raise. *)
Theorem collected_texts_always_join
    (params : pydict) (s s' : state W) (raw_data : pydict) :
  collect E params s = (Ok raw_data, s') ->
  exists articles statuses,
    raw_data !! "news" = Some (PyList (PyDict <$> articles))
    /\ Forall article_record articles
    /\ joined_texts E (PyList (PyDict <$> articles))
       = Ok (String.concat nl (text_of <$> articles))
    /\ res_bind (dict_getitem raw_data "social") (fun social => py_getitem social "twitter")
       = Ok (PyList (PyDict <$> (tweet_dict <$> statuses)))
    /\ (length statuses <= 1000)%nat
    /\ joined_texts E (PyList (PyDict <$> (tweet_dict <$> statuses)))
       = Ok (String.concat nl (st_full_text <$> statuses)).
Proof.
  intros (articles & statuses & t & -> & Hrecords & Hbound)%collect_ok.
  exists articles, statuses.
  split; [by simplify_map_eq|]. split; [done|].
  split; [by apply article_texts_join|].
  split; [|split; [done | apply tweet_texts_join]].
  unfold dict_getitem. by simplify_map_eq.
Qed.

(** What [run_analysis] returns. *)
Lemma run_analysis_ok query s result s' :
  run_analysis E query s = (Ok result, s') ->
  exists election_params articles statuses news_text social_text predictions timestamp,
    result
    = <["timestamp" := PyStr (isoformat E timestamp)]>
      (<["query_parameters" := PyDict election_params]>
      (<["news_analysis" := PyDict (<["articles" := PyList (PyDict <$> articles)]>
                                   (<["analysis" := news_text]> ∅))]>
      (<["social_analysis" :=
           PyDict (<["tweets" := PyList (PyDict <$> (tweet_dict <$> statuses))]>
                  (<["analysis" := social_text]> ∅))]>
      (<["predictions" := predictions]> ∅))))
    /\ Forall article_record articles
    /\ (length statuses <= 1000)%nat.
Proof.
  unfold run_analysis. rewrite try_except_run, bind_run.
  destruct (parse_election_query E query s) as [[election_params|e] s1]; [|discriminate].
  rewrite bind_run. unfold log at 1. rewrite bind_run.
  match goal with
  | |- context [collect E election_params ?s0] =>
      destruct (collect E election_params s0) as [[raw_data|e] s2] eqn:Hcollect
  end; [|discriminate].
  apply collect_ok in Hcollect as (articles & statuses & t0 & -> & Hrecords & Hbound).
  rewrite bind_run. unfold log at 1. rewrite bind_run. unfold lift at 1, dict_getitem at 1.
  rewrite lookup_insert_ne, lookup_insert_ne, lookup_insert_eq by done.
  unfold analyze_source at 1. rewrite bind_run, bind_run. unfold lift at 1.
  rewrite (article_texts_join articles Hrecords).
  rewrite bind_run. unfold request at 1.
  match goal with
  | |- context [handler_analyze E ?c ?k ?w0] =>
      destruct (handler_analyze E c k w0) as [[news_text|e] w1]
  end; [|discriminate].
  unfold ret at 1. rewrite bind_run. unfold log at 1.
  rewrite bind_run. unfold lift at 1, dict_getitem at 1.
  rewrite lookup_insert_ne, lookup_insert_ne, lookup_insert_ne, lookup_insert_eq by done.
  rewrite bind_run. unfold lift at 1, py_getitem at 1, dict_getitem at 1.
  rewrite lookup_insert_eq.
  unfold analyze_source at 1. rewrite bind_run, bind_run. unfold lift at 1.
  rewrite tweet_texts_join.
  rewrite bind_run. unfold request at 1.
  match goal with
  | |- context [handler_analyze E ?c ?k ?w0] =>
      destruct (handler_analyze E c k w0) as [[social_text|e] w2]
  end; [|discriminate].
  unfold ret at 1. rewrite bind_run. unfold log at 1.
  rewrite bind_run. unfold lift at 1, dict_getitem at 1.
  rewrite lookup_insert_ne, lookup_insert_eq by done.
  rewrite bind_run. unfold lift at 1, dict_getitem at 1.
  rewrite lookup_insert_ne, lookup_insert_eq by done.
  rewrite bind_run. unfold request at 1.
  match goal with
  | |- context [handler_predict E ?a ?w0] =>
      destruct (handler_predict E a w0) as [[predictions|e] w3]
  end; [|discriminate].
  rewrite bind_run. unfold now at 1.
  match goal with
  | |- context [clock E ?w0] => destruct (clock E w0) as [t w4]
  end.
  intros [= <- _].
  by exists election_params, articles, statuses, news_text, social_text, predictions, t.
Qed.
End CollectedDataFacts.


(** * The report generator *)

Section ReportFacts.
Context {W : Type} (E : env W) (R : report_env W).
Import ReportGenerator.

Lemma unchanged_lift {A} (r : res A) (s : state W) : snd (lift r s) = s.
Proof. reflexivity. Qed.

Lemma unchanged_bind {A B} (m : M W A) (k : A -> M W B) :
  (forall s, snd (m s) = s) -> (forall a s, snd (k a s) = s) ->
  forall s, snd (bind m k s) = s.
Proof.
  intros Hm Hk s. rewrite bind_run. specialize (Hm s).
  destruct (m s) as [[a|e] s1]; simpl in *; subst s1; [apply Hk | done].
Qed.

(** A block that leaves the state alone, under a handler that logs the
    exception and returns a fixed text, never raises. *)
Lemma absorbed_run (m : M W string) (msg : exc -> string) (fallback : string) (s : state W) :
  (forall s0, snd (m s0) = s0) ->
  exists text s',
    try_except m (fun e => log ERROR (msg e) ;;; ret fallback) s = (Ok text, s')
    /\ world s' = world s
    /\ sent s' = sent s
    /\ (logs s' = logs s
        \/ text = fallback /\ exists e, logs s' = (logs s ++ [(ERROR, msg e)])%list).
Proof.
  intros Hm. rewrite try_except_run. specialize (Hm s).
  destruct (m s) as [[text|e] s1]; simpl in *; subst s1.
  - exists text, s. auto.
  - eexists _, _. split; [reflexivity|]. simpl. eauto 6.
Qed.

Ltac unchanged_steps :=
  repeat first [ apply unchanged_lift | intros ?; apply unchanged_lift
               | reflexivity
               | apply unchanged_bind; [|intros ?] ].

Lemma executive_summary_absorbs (v : pyval) (s : state W) :
  exists text s',
    _generate_executive_summary E R v s = (Ok text, s')
    /\ world s' = world s /\ sent s' = sent s
    /\ (logs s' = logs s
        \/ text = "Error generating executive summary"
           /\ exists e,
               logs s' = (logs s ++ [(ERROR, ("Error generating executive summary: "
                                                ++ str_exc e)%string)])%list).
Proof.
  apply (absorbed_run _ (fun e => "Error generating executive summary: " ++ str_exc e)).
  unchanged_steps.
Qed.

Lemma news_analysis_absorbs (v : pyval) (s : state W) :
  exists text s',
    _format_news_analysis E v s = (Ok text, s')
    /\ world s' = world s /\ sent s' = sent s
    /\ (logs s' = logs s
        \/ text = "Error formatting news analysis"
           /\ exists e,
               logs s' = (logs s ++ [(ERROR, ("Error formatting news analysis: "
                                                ++ str_exc e)%string)])%list).
Proof.
  apply (absorbed_run _ (fun e => "Error formatting news analysis: " ++ str_exc e)).
  unchanged_steps.
Qed.

Lemma social_analysis_absorbs (v : pyval) (s : state W) :
  exists text s',
    _format_social_analysis E R v s = (Ok text, s')
    /\ world s' = world s /\ sent s' = sent s
    /\ (logs s' = logs s
        \/ text = "Error formatting social analysis"
           /\ exists e,
               logs s' = (logs s ++ [(ERROR, ("Error formatting social analysis: "
                                                ++ str_exc e)%string)])%list).
Proof.
  apply (absorbed_run _ (fun e => "Error formatting social analysis: " ++ str_exc e)).
  unchanged_steps.
Qed.

Lemma predictions_absorbs (v : pyval) (s : state W) :
  exists text s',
    _format_predictions E R v s = (Ok text, s')
    /\ world s' = world s /\ sent s' = sent s
    /\ (logs s' = logs s
        \/ text = "Error formatting predictions"
           /\ exists e,
               logs s' = (logs s ++ [(ERROR, ("Error formatting predictions: "
                                                ++ str_exc e)%string)])%list).
Proof.
  apply (absorbed_run _ (fun e => "Error formatting predictions: " ++ str_exc e)).
  unchanged_steps.
Qed.

Lemma now_returns (s : state W) :
  exists t w, now E s = (Ok t, State w (logs s) (sent s)).
Proof. unfold now. destruct (clock E (world s)) as [t w]. eauto. Qed.

Lemma report_content_run (analysis_results : pydict) (s : state W) :
  exists content s',
    _create_report_content E R analysis_results s = (Ok content, s')
    /\ sent s' = sent s.
Proof.
  unfold _create_report_content. rewrite try_except_run. cbv zeta.
  destruct (now_returns s) as (t & w & Hnow). rewrite bind_run, Hnow.
  set (s0 := State w (logs s) (sent s)).
  destruct (executive_summary_absorbs
              (dict_get analysis_results "predictions" (PyDict ∅)) s0)
    as (summary & s1 & Hsummary & _ & Hsent1 & _).
  rewrite bind_run, Hsummary.
  destruct (news_analysis_absorbs
              (dict_get analysis_results "news_analysis" (PyDict ∅)) s1)
    as (news & s2 & Hnews & _ & Hsent2 & _).
  rewrite bind_run, Hnews.
  destruct (social_analysis_absorbs
              (dict_get analysis_results "social_analysis" (PyDict ∅)) s2)
    as (social & s3 & Hsocial & _ & Hsent3 & _).
  rewrite bind_run, Hsocial.
  destruct (predictions_absorbs
              (dict_get analysis_results "predictions" (PyDict ∅)) s3)
    as (outcomes & s4 & Houtcomes & _ & Hsent4 & _).
  rewrite bind_run, Houtcomes.
  eexists _, _. split; [reflexivity|].
  by rewrite Hsent4, Hsent3, Hsent2, Hsent1.
Qed.

(** A dictionary holds a datetime as soon as one of its values does. *)
Lemma holds_datetime_dict (d : pydict) (k : string) (v : pyval) :
  d !! k = Some v -> holds_datetime v = true -> holds_datetime (PyDict d) = true.
Proof.
  cbn [holds_datetime]. revert k v.
  induction d as [|i x m Hfresh Hfirst IH] using map_first_key_ind; intros k v Hk Hv.
  - by rewrite lookup_empty in Hk.
  - rewrite map_fold_insert_first_key by done.
    destruct (decide (i = k)) as [->|Hne].
    + rewrite lookup_insert_eq in Hk. injection Hk as ->. by rewrite Hv.
    + rewrite lookup_insert_ne in Hk by done. rewrite (IH k v Hk Hv). apply orb_true_r.
Qed.

Lemma holds_datetime_tweets (statuses : list status) :
  statuses <> [] ->
  holds_datetime (PyList (PyDict <$> (DataCollector.tweet_dict <$> statuses))) = true.
Proof.
  destruct statuses as [|st rest]; [done|]. intros _.
  cbn [fmap list_fmap]. fold (fmap DataCollector.tweet_dict rest).
  fold (fmap PyDict (DataCollector.tweet_dict <$> rest)).
  change (holds_datetime (PyDict (DataCollector.tweet_dict st))
          || existsb holds_datetime (PyDict <$> (DataCollector.tweet_dict <$> rest)) = true).
  rewrite (holds_datetime_dict _ "created_at" (PyDate (st_created_at st))); [done| |done].
  apply tweet_dict_fields.
Qed.

(** The run of [generate] on a result that holds a datetime. *)
Lemma generate_with_datetime_run
    (analysis_results : pydict) (s s0 s1 : state W) (t : Z) (content : string) :
  holds_datetime (PyDict analysis_results) = true ->
  now E s = (Ok t, s0) ->
  _create_report_content E R analysis_results s0 = (Ok content, s1) ->
  generate E R analysis_results s
  = match write_text R (report_path (strftime_compact R t)) content (world s1) with
    | (Ok _, w2) =>
        (Err (Exc TypeError "Object of type datetime is not JSON serializable"),
         State w2
           (logs s1 ++ [(ERROR, "Error generating report: "
                                  ++ "Object of type datetime is not JSON serializable")])
           (sent s1))
    | (Err e, w2) =>
        (Err e,
         State w2 (logs s1 ++ [(ERROR, "Error generating report: " ++ str_exc e)])
               (sent s1))
    end.
Proof.
  intros Hdate Hnow Hcontent. unfold generate.
  rewrite try_except_run, bind_run, Hnow. cbv zeta. rewrite bind_run, Hcontent.
  rewrite bind_run. unfold write at 1.
  destruct (write_text R _ content (world s1)) as [[[]|e] w2]; [|reflexivity].
  rewrite bind_run. unfold lift at 1, json_dumps. rewrite Hdate. reflexivity.
Qed.

(** A result of the pipeline with a tweet holds a datetime. *)
Lemma pipeline_result_holds_datetime
    (query : string) (s s1 : state W) (result social : pydict)
    (first : pyval) (rest : list pyval) :
  ElectionResearchSystem.run_analysis E query s = (Ok result, s1) ->
  result !! "social_analysis" = Some (PyDict social) ->
  social !! "tweets" = Some (PyList (first :: rest)) ->
  holds_datetime (PyDict result) = true.
Proof.
  intros Hrun Hsocial Htweets.
  apply run_analysis_ok in Hrun
    as (params & articles & statuses & news_text & social_text & predictions & t
        & -> & _ & _).
  rewrite lookup_insert_ne, lookup_insert_ne, lookup_insert_ne, lookup_insert_eq in Hsocial
    by done.
  injection Hsocial as <-. rewrite lookup_insert_eq in Htweets.
  assert (statuses <> []) as Hne by (by destruct statuses).
  eapply (holds_datetime_dict _ "social_analysis"
            (PyDict (<["tweets" := PyList (PyDict <$> (DataCollector.tweet_dict <$> statuses))]>
                    (<["analysis" := social_text]> ∅)))).
  - by simplify_map_eq.
  - eapply holds_datetime_dict; [apply lookup_insert_eq|].
    by apply holds_datetime_tweets.
Qed.

(** X12. The four section formatters of the report never raise, whatever
    value they are given and however formatting behaves: each returns a
    text and touches nothing but the log, and either logs nothing or logs
    one error and returns its fixed fallback text. *)
Theorem section_formatters_never_raise (v : pyval) (s : state W) :
  (exists text s',
      _generate_executive_summary E R v s = (Ok text, s')
      /\ world s' = world s /\ sent s' = sent s
      /\ (logs s' = logs s
          \/ text = "Error generating executive summary"
             /\ exists e,
                 logs s' = (logs s ++ [(ERROR, ("Error generating executive summary: "
                                                  ++ str_exc e)%string)])%list))
  /\ (exists text s',
        _format_news_analysis E v s = (Ok text, s')
        /\ world s' = world s /\ sent s' = sent s
        /\ (logs s' = logs s
            \/ text = "Error formatting news analysis"
               /\ exists e,
                 logs s' = (logs s ++ [(ERROR, ("Error formatting news analysis: "
                                                  ++ str_exc e)%string)])%list))
  /\ (exists text s',
        _format_social_analysis E R v s = (Ok text, s')
        /\ world s' = world s /\ sent s' = sent s
        /\ (logs s' = logs s
            \/ text = "Error formatting social analysis"
               /\ exists e,
                 logs s' = (logs s ++ [(ERROR, ("Error formatting social analysis: "
                                                  ++ str_exc e)%string)])%list))
  /\ (exists text s',
        _format_predictions E R v s = (Ok text, s')
        /\ world s' = world s /\ sent s' = sent s
        /\ (logs s' = logs s
            \/ text = "Error formatting predictions"
               /\ exists e,
                 logs s' = (logs s ++ [(ERROR, ("Error formatting predictions: "
                                                  ++ str_exc e)%string)])%list)).
Proof.
  split; [apply executive_summary_absorbs|].
  split; [apply news_analysis_absorbs|].
  split; [apply social_analysis_absorbs | apply predictions_absorbs].
Qed.

(** X13. [_create_report_content] never raises: the failures of the
    sections are absorbed by the sections, so that a report text is
    returned for every result dictionary, and nothing is requested. *)
Theorem create_report_content_never_raises (analysis_results : pydict) (s : state W) :
  exists content s',
    _create_report_content E R analysis_results s = (Ok content, s')
    /\ sent s' = sent s.
Proof. apply report_content_run. Qed.

(** X14. A result that holds a datetime is refused by [generate]: once the
    report text is made, either the report file cannot be written and that
    exception is raised, or it is written and the JSON dump raises a
    [TypeError]; in both cases nothing is written afterwards, so no raw
    data file is made. *)
Theorem generate_rejects_datetimes
    (analysis_results : pydict) (s s0 s1 : state W) (t : Z) (content : string) :
  holds_datetime (PyDict analysis_results) = true ->
  now E s = (Ok t, s0) ->
  _create_report_content E R analysis_results s0 = (Ok content, s1) ->
  match write_text R ("reports/election_analysis_" ++ strftime_compact R t ++ ".md") content
                   (world s1) with
  | (Ok _, w2) =>
      fst (generate E R analysis_results s)
      = Err (Exc TypeError "Object of type datetime is not JSON serializable")
      /\ world (snd (generate E R analysis_results s)) = w2
  | (Err e, w2) =>
      fst (generate E R analysis_results s) = Err e
      /\ world (snd (generate E R analysis_results s)) = w2
  end.
Proof.
  intros Hdate Hnow Hcontent.
  change ("reports/election_analysis_" ++ strftime_compact R t ++ ".md")
    with (report_path (strftime_compact R t)).
  rewrite (generate_with_datetime_run analysis_results s s0 s1 t content Hdate Hnow Hcontent).
  by destruct (write_text R _ content (world s1)) as [[[]|e] w2].
Qed.

(** X15. A result of the pipeline with at least one collected tweet cannot
    be reported: for such a result [generate] raises in every state,
    because the tweets carry their [created_at] datetime into the JSON
    dump, and [generate_report] raises with it. *)
Theorem pipeline_result_with_tweets_is_not_reported
    (query : string) (s s1 s0 : state W) (result social : pydict)
    (first : pyval) (rest : list pyval) :
  ElectionResearchSystem.run_analysis E query s = (Ok result, s1) ->
  result !! "social_analysis" = Some (PyDict social) ->
  social !! "tweets" = Some (PyList (first :: rest)) ->
  is_Err (fst (generate E R result s0)) = true
  /\ is_Err (fst (ElectionResearchSystem.generate_report E R result s0)) = true.
Proof.
  intros Hrun Hsocial Htweets.
  pose proof (pipeline_result_holds_datetime query s s1 result social first rest
                Hrun Hsocial Htweets) as Hdate.
  assert (forall s2, is_Err (fst (generate E R result s2)) = true) as Hgenerate.
  { intros s2. destruct (now_returns s2) as (t2 & w2 & Hnow).
    destruct (report_content_run result (State w2 (logs s2) (sent s2)))
      as (content & s3 & Hcontent & _).
    rewrite (generate_with_datetime_run result s2 _ s3 t2 content Hdate Hnow Hcontent).
    by destruct (write_text R _ content (world s3)) as [[[]|e] w3]. }
  split; [apply Hgenerate|].
  unfold ElectionResearchSystem.generate_report.
  rewrite log_and_raise_run, bind_run. unfold log at 1. rewrite bind_run.
  match goal with
  | |- context [generate E R result ?s2] =>
      specialize (Hgenerate s2); destruct (generate E R result s2) as [[path|e] s3]
  end; [discriminate | reflexivity].
Qed.

End ReportFacts.


Section ReportOfPipelineFacts.
Context {W : Type} (E : env W) (R : report_env W).
Import ReportGenerator.

(** X16. The news and Twitter sections of the report do not show what the
    pipeline collected: [run_analysis] stores its data under [articles],
    [tweets] and [analysis], the sections read [article_count],
    [meta_analysis], [twitter_analysis] and [overall_sentiment], so for
    every result of [run_analysis] the news section reports the count
    [str(0)] and no analysis, and the Twitter section is the one of an
    empty analysis. *)
Theorem report_sections_ignore_pipeline_data
    (query : string) (s s1 s0 : state W) (result : pydict) :
  ElectionResearchSystem.run_analysis E query s = (Ok result, s1) ->
  _format_news_analysis E (dict_get result "news_analysis" (PyDict ∅)) s0
  = (Ok ("### Overview" ++ nl
           ++ "- Number of articles analyzed: " ++ py_str E (PyInt 0) ++ nl
           ++ nl
           ++ "### Key Findings" ++ nl
           ++ "No analysis available"), s0)
  /\ _format_social_analysis E R (dict_get result "social_analysis" (PyDict ∅)) s0
     = _format_social_analysis E R (PyDict ∅) s0.
Proof.
  intros Hrun.
  apply run_analysis_ok in Hrun
    as (params & articles & statuses & news_text & social_text & predictions & t
        & -> & _ & _).
  unfold dict_get at 1 2.
  rewrite lookup_insert_ne, lookup_insert_ne, lookup_insert_eq by done.
  rewrite lookup_insert_ne, lookup_insert_ne, lookup_insert_ne, lookup_insert_eq by done.
  cbn [default from_option id]. split.
  - unfold _format_news_analysis. rewrite try_except_run, bind_run.
    unfold lift at 1, py_get at 1, dict_get.
    rewrite lookup_insert_ne, lookup_insert_ne, lookup_empty by done.
    rewrite bind_run. unfold lift at 1, py_get at 1, dict_get.
    rewrite lookup_insert_ne, lookup_insert_ne, lookup_empty by done.
    reflexivity.
  - unfold _format_social_analysis. f_equal.
Qed.

(** X17. For a result without a datetime, when both files can be written,
    [generate] returns the path of the report in [reports/], and the two
    files it wrote, first the report and then the JSON dump of the
    result, carry the same timestamp in their names. *)
Theorem generate_writes_report_then_raw_data
    (analysis_results : pydict) (s s0 s1 : state W) (t : Z) (content : string) (w2 w3 : W) :
  holds_datetime (PyDict analysis_results) = false ->
  now E s = (Ok t, s0) ->
  _create_report_content E R analysis_results s0 = (Ok content, s1) ->
  write_text R ("reports/election_analysis_" ++ strftime_compact R t ++ ".md") content
             (world s1) = (Ok tt, w2) ->
  write_text R ("reports/raw_data_" ++ strftime_compact R t ++ ".json")
             (json_text R (PyDict analysis_results)) w2 = (Ok tt, w3) ->
  generate E R analysis_results s
  = (Ok ("reports/election_analysis_" ++ strftime_compact R t ++ ".md"),
     State w3 (logs s1) (sent s1)).
Proof.
  intros Hdate Hnow Hcontent Hreport Hraw. unfold generate.
  rewrite try_except_run, bind_run, Hnow. cbv zeta. rewrite bind_run, Hcontent.
  rewrite bind_run. unfold write at 1.
  change (report_path (strftime_compact R t))
    with ("reports/election_analysis_" ++ strftime_compact R t ++ ".md").
  rewrite Hreport.
  rewrite bind_run. unfold lift at 1, json_dumps. rewrite Hdate.
  rewrite bind_run. unfold write at 1. cbn [world logs sent].
  change (raw_data_path (strftime_compact R t))
    with ("reports/raw_data_" ++ strftime_compact R t ++ ".json").
  rewrite Hraw. reflexivity.
Qed.
End ReportOfPipelineFacts.


(** * The model download *)

Section DownloadRuns.
Context {W : Type}.
Variable requests_get_stream : string -> W -> res DownloadModel.response * W.
Variable py_int : string -> res Z.
Variable progress_done : Z -> Z -> Z.
Import DownloadModel.

Lemma mkdir_models (m : machine W) :
  files m !! "models" = None ->
  mkdir "models" m
  = (Ok tt, Machine (net m) ({["models"]} ∪ dirs m) (files m) (stdout m) (requested m)).
Proof.
  intros Hfree. unfold mkdir. rewrite bool_decide_eq_false_2; [done|].
  by rewrite not_elem_of_dom.
Qed.

Lemma model_path_is_not_models : model_path <> "models".
Proof. discriminate. Qed.

(** The model file is there, as a file, after the directory was made. *)
Lemma path_exists_file (m : machine W) (data : list Byte.byte) (extra : gset string) :
  files m !! model_path = Some data ->
  path_exists model_path (Machine (net m) (extra ∪ dirs m) (files m) (stdout m) (requested m))
  = true.
Proof.
  intros Hfile. unfold path_exists. cbn [files dirs].
  rewrite bool_decide_eq_true_2; [done|]. apply elem_of_dom. eauto.
Qed.

Lemma path_exists_absent (m : machine W) :
  files m !! model_path = None ->
  model_path ∉ dirs m ->
  path_exists model_path
    (Machine (net m) ({["models"]} ∪ dirs m) (files m) (stdout m) (requested m)) = false.
Proof.
  intros Hfile Hdir. unfold path_exists. cbn [files dirs].
  rewrite bool_decide_eq_false_2 by (by rewrite not_elem_of_dom).
  rewrite bool_decide_eq_false_2; [done|].
  intros [Hin|Hin]%elem_of_union; [|done].
  apply elem_of_singleton in Hin. discriminate.
Qed.

(** What the loop over the chunks leaves: every chunk appended to the
    file, one progress line per chunk, and nothing else changed. *)
Lemma write_chunks_run (total downloaded : Z) (chunks : list (list Byte.byte))
    (m : machine W) (data : list Byte.byte) :
  files m !! model_path = Some data ->
  exists lines,
    write_chunks progress_done total downloaded chunks m
    = Machine (net m) (dirs m) (<[model_path := (data ++ concat chunks)%list]> (files m))
              (stdout m ++ lines) (requested m)
    /\ length lines = length chunks.
Proof.
  revert downloaded m data. induction chunks as [|chunk rest IH]; intros downloaded m data Hfile.
  - exists []. simpl. rewrite !app_nil_r, insert_id by done. by destruct m.
  - cbn [write_chunks].
    edestruct (IH (downloaded + Z.of_nat (length chunk))
                  (print (progress_text progress_done
                            (downloaded + Z.of_nat (length chunk)) total)
                         (append_file model_path chunk m))
                  (data ++ chunk)%list) as (lines & -> & Hlines).
    { unfold print, append_file. cbn [files]. rewrite lookup_insert_eq, Hfile. done. }
    eexists (_ :: lines). split; [|cbn [length]; by rewrite Hlines].
    unfold print, append_file. cbn [net dirs files stdout requested concat].
    rewrite insert_insert_eq, <- !app_assoc. reflexivity.
Qed.

(** The run of the script when the model file exists. *)
Lemma model_exists_run (m : machine W) (data : list Byte.byte) :
  files m !! "models" = None ->
  files m !! model_path = Some data ->
  download_model requests_get_stream py_int progress_done m
  = (Ok tt,
     Machine (net m) ({["models"]} ∪ dirs m) (files m)
             (stdout m ++ ["Model already exists at models/llama-2-7b-chat.Q4_K_M.gguf" ++ nl])
             (requested m)).
Proof.
  intros Hfree Hfile. unfold download_model.
  rewrite (mkdir_models m Hfree), (path_exists_file m data _ Hfile). reflexivity.
Qed.
End DownloadRuns.

Section DownloadFacts.
Context {W : Type}.
Variable requests_get_stream : string -> W -> res DownloadModel.response * W.
Variable py_int : string -> res Z.
Variable progress_done : Z -> Z -> Z.
Import DownloadModel.

(** X18. When the model file exists the script is a no-op: it requests
    nothing, leaves every file as it is and prints that the model exists. *)
Theorem download_is_noop_when_model_exists (m : machine W) (data : list Byte.byte) :
  files m !! "models" = None ->
  files m !! "models/llama-2-7b-chat.Q4_K_M.gguf" = Some data ->
  download_model requests_get_stream py_int progress_done m
  = (Ok tt,
     Machine (net m) ({["models"]} ∪ dirs m) (files m)
             (stdout m ++ ["Model already exists at models/llama-2-7b-chat.Q4_K_M.gguf" ++ nl])
             (requested m)).
Proof. apply model_exists_run. Qed.

(** X19. A download that is answered and then breaks leaves the model file
    behind, holding the chunks written before the break (nothing at all
    when the answer has no content length), and the script takes that
    file for the model ever after: the next run, whatever the network
    would answer, requests nothing and reports that the model exists. *)
Theorem broken_download_is_taken_for_the_model
    (m : machine W) (answer : response) (w : W) (total : Z) (e : exc)
    (retry : string -> W -> res response * W) :
  files m !! "models" = None ->
  files m !! "models/llama-2-7b-chat.Q4_K_M.gguf" = None ->
  "models/llama-2-7b-chat.Q4_K_M.gguf" ∉ dirs m ->
  requests_get_stream
    "https://huggingface.co/TheBloke/Llama-2-7B-Chat-GGUF/resolve/main/llama-2-7b-chat.Q4_K_M.gguf"
    (net m) = (Ok answer, w) ->
  total_size_of py_int answer = Ok total ->
  broken answer = Some e ->
  exists m',
    download_model requests_get_stream py_int progress_done m = (Err e, m')
    /\ files m' !! "models/llama-2-7b-chat.Q4_K_M.gguf"
       = Some (if total =? 0 then [] else concat (body answer))
    /\ requested m'
       = (requested m
          ++ ["https://huggingface.co/TheBloke/Llama-2-7B-Chat-GGUF/resolve/main/llama-2-7b-chat.Q4_K_M.gguf"]
         )%list
    /\ fst (download_model retry py_int progress_done m') = Ok tt
    /\ requested (snd (download_model retry py_int progress_done m')) = requested m'
    /\ files (snd (download_model retry py_int progress_done m')) = files m'.
Proof.
  change "models/llama-2-7b-chat.Q4_K_M.gguf" with model_path.
  change "https://huggingface.co/TheBloke/Llama-2-7B-Chat-GGUF/resolve/main/llama-2-7b-chat.Q4_K_M.gguf"
    with model_url.
  intros Hfree Hfile Hdir Hget Htotal Hbroken.
  unfold download_model at 1.
  rewrite (mkdir_models m Hfree), (path_exists_absent m Hfile Hdir).
  cbv zeta. unfold get, print, create_file. cbn [net dirs files stdout requested].
  rewrite Hget, Htotal, Hbroken.
  destruct (total =? 0) eqn:Hzero.
  - eexists. split; [reflexivity|]. cbn [net dirs files stdout requested].
    split; [by rewrite lookup_insert_eq|]. split; [done|].
    match goal with
    | |- context [download_model retry py_int progress_done ?m1] =>
        rewrite (model_exists_run retry py_int progress_done m1 [])
    end; [done| |].
    + cbn [files]. rewrite lookup_insert_ne; [done | apply model_path_is_not_models].
    + cbn [files]. by rewrite lookup_insert_eq.
  - match goal with
    | |- context [write_chunks progress_done total 0 (body answer) ?m0] =>
        destruct (write_chunks_run progress_done total 0 (body answer) m0 [])
          as (lines & Hloop & _)
    end.
    { cbn [files]. by rewrite lookup_insert_eq. }
    rewrite Hloop. eexists. split; [reflexivity|].
    cbn [net dirs files stdout requested]. rewrite insert_insert_eq.
    split; [by rewrite lookup_insert_eq|]. split; [done|].
    match goal with
    | |- context [download_model retry py_int progress_done ?m1] =>
        rewrite (model_exists_run retry py_int progress_done m1 (concat (body answer)))
    end; [done| |].
    + cbn [files]. rewrite lookup_insert_ne; [done | apply model_path_is_not_models].
    + cbn [files]. by rewrite lookup_insert_eq.
Qed.

(** X20. A download that is answered to its end leaves exactly the bytes
    of the answer in the model file, whatever the content length says
    (absent, zero, or any other number), after one request for the model's
    address, and announces the end last. *)
Theorem completed_download_stores_the_body
    (m : machine W) (answer : response) (w : W) (total : Z) :
  files m !! "models" = None ->
  files m !! "models/llama-2-7b-chat.Q4_K_M.gguf" = None ->
  "models/llama-2-7b-chat.Q4_K_M.gguf" ∉ dirs m ->
  requests_get_stream
    "https://huggingface.co/TheBloke/Llama-2-7B-Chat-GGUF/resolve/main/llama-2-7b-chat.Q4_K_M.gguf"
    (net m) = (Ok answer, w) ->
  total_size_of py_int answer = Ok total ->
  broken answer = None ->
  exists m',
    download_model requests_get_stream py_int progress_done m = (Ok tt, m')
    /\ files m' = <["models/llama-2-7b-chat.Q4_K_M.gguf" := concat (body answer)]> (files m)
    /\ requested m'
       = (requested m
          ++ ["https://huggingface.co/TheBloke/Llama-2-7B-Chat-GGUF/resolve/main/llama-2-7b-chat.Q4_K_M.gguf"]
         )%list
    /\ last (stdout m') = Some (nl ++ "Download complete!" ++ nl).
Proof.
  change "models/llama-2-7b-chat.Q4_K_M.gguf" with model_path.
  change "https://huggingface.co/TheBloke/Llama-2-7B-Chat-GGUF/resolve/main/llama-2-7b-chat.Q4_K_M.gguf"
    with model_url.
  intros Hfree Hfile Hdir Hget Htotal Hbroken.
  unfold download_model.
  rewrite (mkdir_models m Hfree), (path_exists_absent m Hfile Hdir).
  cbv zeta. unfold get, complete, print, create_file, append_file.
  cbn [net dirs files stdout requested].
  rewrite Hget, Htotal, Hbroken.
  destruct (total =? 0) eqn:Hzero.
  - eexists. split; [reflexivity|]. cbn [net dirs files stdout requested].
    rewrite lookup_insert_eq, insert_insert_eq. cbn [default from_option id app].
    split; [done|]. split; [done|]. apply last_snoc.
  - match goal with
    | |- context [write_chunks progress_done total 0 (body answer) ?m0] =>
        destruct (write_chunks_run progress_done total 0 (body answer) m0 [])
          as (lines & Hloop & _)
    end.
    { cbn [files]. by rewrite lookup_insert_eq. }
    rewrite Hloop. eexists. split; [reflexivity|].
    cbn [net dirs files stdout requested app]. rewrite insert_insert_eq.
    split; [done|]. split; [done|]. apply last_snoc.
Qed.

(** X21. When the request raises, or the content length of the answer is
    no integer, the script raises that exception before it opens the
    model file: no file is created or changed, so a later run downloads
    again. *)
Theorem failed_request_creates_no_file (m : machine W) (w : W) (e : exc) :
  files m !! "models" = None ->
  files m !! "models/llama-2-7b-chat.Q4_K_M.gguf" = None ->
  "models/llama-2-7b-chat.Q4_K_M.gguf" ∉ dirs m ->
  requests_get_stream
    "https://huggingface.co/TheBloke/Llama-2-7B-Chat-GGUF/resolve/main/llama-2-7b-chat.Q4_K_M.gguf"
    (net m) = (Err e, w)
  \/ (exists answer,
        requests_get_stream
          "https://huggingface.co/TheBloke/Llama-2-7B-Chat-GGUF/resolve/main/llama-2-7b-chat.Q4_K_M.gguf"
          (net m) = (Ok answer, w)
        /\ total_size_of py_int answer = Err e) ->
  exists m',
    download_model requests_get_stream py_int progress_done m = (Err e, m')
    /\ files m' = files m
    /\ path_exists "models/llama-2-7b-chat.Q4_K_M.gguf" m' = false.
Proof.
  change "models/llama-2-7b-chat.Q4_K_M.gguf" with model_path.
  change "https://huggingface.co/TheBloke/Llama-2-7B-Chat-GGUF/resolve/main/llama-2-7b-chat.Q4_K_M.gguf"
    with model_url.
  intros Hfree Hfile Hdir Hfails.
  unfold download_model.
  rewrite (mkdir_models m Hfree), (path_exists_absent m Hfile Hdir).
  cbv zeta. unfold get, print. cbn [net dirs files stdout requested].
  destruct Hfails as [Hget | (answer & Hget & Htotal)]; rewrite Hget; [|rewrite Htotal];
    (eexists; split; [reflexivity|]; split; [done|];
     by apply (path_exists_absent (Machine w (dirs m) (files m) _ _))).
Qed.
End DownloadFacts.


(** * The further properties at the stub collaborators *)

Section FurtherScenarios.
Import Stub.

Lemma analyze_twitter_time_period_witness :
  exists lo hi s',
    SocialMediaAnalyzer._analyze_twitter scenario
      (PyList (PyDict <$> (DataCollector.tweet_dict <$> [tweet 1; tweet 2]))) start
    = (Ok (<["sentiment_analysis" := PyStr "fixed analysis"]>
          (<["tweet_count" := PyInt 2]>
          (<["time_period" := PyDict (<["start" := PyDate lo]> (<["end" := PyDate hi]> ∅))]> ∅))),
       s')
    /\ lo ∈ [1001; 1002] /\ hi ∈ [1001; 1002].
Proof.
  destruct (analyze_twitter_time_period scenario [tweet 1; tweet 2] start "fixed analysis" 1)
    as (lo & hi & s' & Hrun & Hlo & Hhi & _).
  - discriminate.
  - reflexivity.
  - exists lo, hi, s'. split; [exact Hrun|]. split; [exact Hlo | exact Hhi].
Defined.

Lemma collect_twitter_one_bounded_search_witness :
  is_Ok (fst (DataCollector._collect_twitter scenario params start)) = true
  /\ logs (snd (DataCollector._collect_twitter scenario params start)) = logs start.
Proof.
  split; [vm_compute; reflexivity|].
  refine (proj2 (proj2 (proj2
            (collect_twitter_one_bounded_search scenario params start
               (snd (DataCollector._collect_twitter scenario params start))
               (value_or [] (fst (DataCollector._collect_twitter scenario params start)))
               _)))).
  evaluated.
Defined.

Lemma keywords_none_fails_hashtags_none_passes_witness :
  fst (DataCollector._collect_news scenario params_with_none start)
  = Err (Exc TypeError "'NoneType' object is not iterable")
  /\ is_Ok (DataCollector.twitter_search_terms scenario params_with_none) = true.
Proof.
  destruct (keywords_none_fails_hashtags_none_passes scenario params_with_none start
              (value_or [] (DataCollector.location_and_candidates scenario params_with_none)))
    as (Hnews & _ & Htwitter).
  1-3: evaluated.
  split; [exact Hnews|]. rewrite Htwitter. reflexivity.
Defined.

Lemma candidates_string_is_quoted_per_character_witness :
  exists query,
    sent (snd (DataCollector._collect_twitter scenario one_name start))
    = [TwitterSearch query "extended" "en" 1000]
    /\ String.length query = 28%nat.
Proof.
  eexists. split.
  - apply (candidates_string_is_quoted_per_character scenario one_name "Ann" start).
    1,4-7: evaluated.
    + discriminate.
    + repeat constructor; simpl; lia.
  - reflexivity.
Defined.

Lemma twitter_query_of_typed_parameters_witness :
  exists query,
    sent (snd (DataCollector._collect_twitter scenario params start))
    = [TwitterSearch query "extended" "en" 1000]
    /\ String.length query = 41%nat.
Proof.
  eexists. split.
  - apply (twitter_query_of_typed_parameters scenario params
             (Some "presidential") (Some "USA") None ["A"; "B"] [] start); evaluated.
  - reflexivity.
Defined.

Lemma collect_news_without_articles_witness :
  DataCollector._collect_news no_articles params start
  = (Ok [], State 2 [] [HttpGet "https://newsapi.org/v2/everything" params]).
Proof.
  apply (collect_news_without_articles no_articles params start
           (value_or [] (DataCollector.news_search_terms no_articles params))
           (value_or "" (py_join " AND "
                           (value_or [] (DataCollector.news_search_terms no_articles params))))
           (<["status" := PyStr "ok"]> ∅) 2);
    evaluated.
Defined.

Lemma news_request_failure_fails_collection_witness :
  fst (DataCollector.collect news_down params start)
  = Err (Exc (External "ConnectionError") "Failed to establish a new connection")
  /\ sent (snd (DataCollector.collect news_down params start))
     = [HttpGet "https://newsapi.org/v2/everything" params].
Proof.
  rewrite (news_request_failure_fails_collection news_down params start
             (value_or [] (DataCollector.news_search_terms news_down params))
             (value_or "" (py_join " AND "
                             (value_or [] (DataCollector.news_search_terms news_down params))))
             (Exc (External "ConnectionError") "Failed to establish a new connection") 2).
  1: split; reflexivity.
  all: evaluated.
Defined.

Lemma analyze_article_without_url_witness :
  exists s',
    NewsAnalyzer._analyze_single_article scenario (<["title" := PyStr "no address"]> ∅) start
    = (Ok (<["error" := PyStr "'url'"]> (<["url" := PyStr "unknown"]> ∅)), s')
    /\ sent s' = [].
Proof.
  destruct (analyze_article_without_url scenario (<["title" := PyStr "no address"]> ∅) start)
    as (s' & Hrun & Hsent & _).
  - evaluated.
  - exists s'. split; [exact Hrun | exact Hsent].
Defined.

Lemma collected_texts_always_join_witness :
  exists articles,
    value_or ∅ (fst (DataCollector.collect scenario params start)) !! "news"
    = Some (PyList (PyDict <$> articles))
    /\ Forall article_record articles.
Proof.
  destruct (collected_texts_always_join scenario params start
              (snd (DataCollector.collect scenario params start))
              (value_or ∅ (fst (DataCollector.collect scenario params start))))
    as (articles & statuses & Hnews & Hrecords & _).
  - evaluated.
  - exists articles. split; [exact Hnews | exact Hrecords].
Defined.

Lemma generate_rejects_datetimes_witness :
  fst (ReportGenerator.generate scenario report_stub
         (value_or ∅ (fst (ElectionResearchSystem.run_analysis scenario "who wins?" start)))
         start)
  = Err (Exc TypeError "Object of type datetime is not JSON serializable").
Proof.
  pose (result :=
          value_or ∅ (fst (ElectionResearchSystem.run_analysis scenario "who wins?" start))).
  pose (made := ReportGenerator._create_report_content scenario report_stub result
                  (snd (now scenario start))).
  pose proof (generate_rejects_datetimes scenario report_stub result start
                (snd (now scenario start)) (snd made) 0 (value_or "" (fst made)))
    as Houtcome.
  cbn [write_text report_stub] in Houtcome.
  apply Houtcome; evaluated.
Defined.

Lemma pipeline_result_with_tweets_is_not_reported_witness :
  is_Err (fst (ElectionResearchSystem.generate_report scenario report_stub
                 (value_or ∅ (fst (ElectionResearchSystem.run_analysis scenario "who wins?"
                                     start)))
                 start)) = true.
Proof.
  assert (match value_or ∅ (fst (ElectionResearchSystem.run_analysis scenario "who wins?"
                                   start)) !! "social_analysis" with
          | Some (PyDict social) =>
              match social !! "tweets" with
              | Some (PyList (_ :: _)) => true
              | _ => false
              end
          | _ => false
          end = true) as Htweets by evaluated.
  destruct (ElectionResearchSystem.run_analysis scenario "who wins?" start)
    as [[result|e] s1] eqn:Hrun; [|discriminate Htweets].
  cbn [value_or fst] in *.
  destruct (result !! "social_analysis") as [[| | | | | | |social]|] eqn:Hsocial;
    try discriminate Htweets.
  destruct (social !! "tweets") as [[| | | | | |[|first rest]|]|] eqn:Hlist;
    try discriminate Htweets.
  exact (proj2 (pipeline_result_with_tweets_is_not_reported scenario report_stub
                  "who wins?" start s1 start result social first rest Hrun Hsocial Hlist)).
Defined.

Lemma report_sections_ignore_pipeline_data_witness :
  fst (ReportGenerator._format_news_analysis scenario
         (dict_get (value_or ∅ (fst (ElectionResearchSystem.run_analysis scenario
                                       "who wins?" start)))
                   "news_analysis" (PyDict ∅))
         start)
  = fst (ReportGenerator._format_news_analysis scenario (PyDict ∅) start).
Proof.
  assert (is_Ok (fst (ElectionResearchSystem.run_analysis scenario "who wins?" start)) = true)
    as Hreturns by evaluated.
  destruct (ElectionResearchSystem.run_analysis scenario "who wins?" start)
    as [[result|e] s1] eqn:Hrun; [|discriminate Hreturns].
  cbn [value_or fst].
  destruct (report_sections_ignore_pipeline_data scenario report_stub
              "who wins?" start s1 start result Hrun)
    as [Hnews _].
  etransitivity; [exact (f_equal fst Hnews) | reflexivity].
Defined.

Lemma generate_writes_report_then_raw_data_witness :
  fst (ReportGenerator.generate scenario report_stub plain_result start)
  = Ok "reports/election_analysis_0.md".
Proof.
  pose (made := ReportGenerator._create_report_content scenario report_stub plain_result
                  (snd (now scenario start))).
  rewrite (generate_writes_report_then_raw_data scenario report_stub plain_result start
             (snd (now scenario start)) (snd made) 0 (value_or "" (fst made))
             (world (snd made) + 1) (world (snd made) + 2)).
  1: reflexivity.
  all: evaluated.
Defined.

Lemma download_is_noop_when_model_exists_witness :
  fst (DownloadModel.download_model whole_download parse_int progress stocked_machine) = Ok tt
  /\ DownloadModel.requested
       (snd (DownloadModel.download_model whole_download parse_int progress stocked_machine))
     = [].
Proof.
  rewrite (download_is_noop_when_model_exists whole_download parse_int progress
             stocked_machine (chunk 10)).
  1: split; reflexivity.
  all: evaluated.
Defined.

Lemma broken_download_is_taken_for_the_model_witness :
  exists m',
    DownloadModel.download_model broken_download parse_int progress fresh_machine
    = (Err (Exc (External "ChunkedEncodingError") "Connection broken"), m')
    /\ DownloadModel.files m' !! "models/llama-2-7b-chat.Q4_K_M.gguf" = Some (chunk 8)
    /\ fst (DownloadModel.download_model whole_download parse_int progress m') = Ok tt
    /\ DownloadModel.files
         (snd (DownloadModel.download_model whole_download parse_int progress m'))
       = DownloadModel.files m'.
Proof.
  destruct (broken_download_is_taken_for_the_model broken_download parse_int progress
              fresh_machine
              (DownloadModel.Response (Some "10") [chunk 4; chunk 4]
                 (Some (Exc (External "ChunkedEncodingError") "Connection broken")))
              1 10 (Exc (External "ChunkedEncodingError") "Connection broken")
              whole_download)
    as (m' & Hrun & Hfile & _ & Hretry & _ & Hfiles).
  1,2,4-6: reflexivity.
  - apply not_elem_of_empty.
  - exists m'. split; [exact Hrun|]. split; [exact Hfile|]. split; [exact Hretry | exact Hfiles].
Defined.

Lemma completed_download_stores_the_body_witness :
  exists m',
    DownloadModel.download_model whole_download parse_int progress fresh_machine = (Ok tt, m')
    /\ DownloadModel.files m' = {["models/llama-2-7b-chat.Q4_K_M.gguf" := chunk 10]}.
Proof.
  destruct (completed_download_stores_the_body whole_download parse_int progress
              fresh_machine
              (DownloadModel.Response (Some "10") [chunk 4; chunk 4; chunk 2] None) 1 10)
    as (m' & Hrun & Hfiles & _).
  1,2,4-6: reflexivity.
  - apply not_elem_of_empty.
  - exists m'. split; [exact Hrun | exact Hfiles].
Defined.

Lemma failed_request_creates_no_file_witness :
  exists m',
    DownloadModel.download_model no_network parse_int progress fresh_machine
    = (Err (Exc (External "ConnectionError") "Failed to establish a new connection"), m')
    /\ DownloadModel.files m' = ∅.
Proof.
  destruct (failed_request_creates_no_file no_network parse_int progress fresh_machine 1
              (Exc (External "ConnectionError") "Failed to establish a new connection"))
    as (m' & Hrun & Hfiles & _).
  1,2: reflexivity.
  - apply not_elem_of_empty.
  - left. reflexivity.
  - exists m'. split; [exact Hrun | exact Hfiles].
Defined.
End FurtherScenarios.
